(** * AutoCNN: the topology codec and the model builder of [cnn_structure.py]

    A shallow embedding of [SkipLayer], [PoolingLayer], [CNN] and
    [get_layer_from_string].

    Conventions of the embedding.
    - A Python [str] is a [string] whose characters are read as the code
      points 0..255; [Py.isdigit], [Py.isspace] and [Py.int] follow CPython on
      that range.  Integer/string conversions are unbounded (the interpreter's
      optional limit on the number of digits is not part of the model).
    - A Python [int] is a [Z].
    - Exceptions are values of [Py.exn]; code that may raise returns a
      [Py.result].
    - TensorFlow is an external collaborator: tensors are symbolic terms
      recording the layer constructors applied, and every engine call goes
      through an abstract transition system that may raise. *)

From Stdlib Require Import ZArith String Ascii List Bool Lia QArith.
From Stdlib Require Import Decimal DecimalString DecimalPos DecimalZ.
From stdpp Require Import base option gmap strings list.

Local Open Scope string_scope.
Local Open Scope Z_scope.

#[local] Arguments String.append !s1 s2 : simpl nomatch.

(** ** Python built-ins *)

Module Py.

Inductive exn : Type :=
| IndexError
| ValueError
| KeyError (key : string)
| AttributeError (attr : string)
| EngineError.

Inductive result (A : Type) : Type :=
| Ok (a : A)
| Raise (e : exn).
Arguments Ok {A} a.
Arguments Raise {A} e.

Definition bind {A B} (r : result A) (k : A -> result B) : result B :=
  match r with
  | Ok a => k a
  | Raise e => Raise e
  end.

Definition raises {A} (r : result A) : Prop := exists e, r = Raise e.

Fixpoint all_chars (p : ascii -> bool) (s : string) : bool :=
  match s with
  | EmptyString => true
  | String c r => p c && all_chars p r
  end.

(** The ASCII digits: the only decimal digits below code point 256. *)
Definition is_decimal (c : ascii) : bool :=
  match c with
  | "0" | "1" | "2" | "3" | "4" | "5" | "6" | "7" | "8" | "9" => true
  | _ => false
  end%char.

(** Superscript two, three and one (U+00B2, U+00B3, U+00B9) are digits for
    [str.isdigit] without being decimal digits. *)
Definition is_superscript (c : ascii) : bool :=
  let n := nat_of_ascii c in
  (Nat.eqb n 178 || Nat.eqb n 179 || Nat.eqb n 185)%bool.

(** [str.isdigit()]: non-empty and every character is a digit. *)
Definition isdigit (s : string) : bool :=
  match s with
  | EmptyString => false
  | _ => all_chars (fun c => is_decimal c || is_superscript c) s
  end.

(** White space as [int()] strips it: U+0009..U+000D and U+0020, and the
    two white-space characters above the ASCII range, U+0085 and U+00A0. *)
Definition isspace (c : ascii) : bool :=
  let n := nat_of_ascii c in
  ((Nat.leb 9 n && Nat.leb n 13) || Nat.eqb n 32
   || Nat.eqb n 133 || Nat.eqb n 160)%bool.

Fixpoint lstrip (s : string) : string :=
  match s with
  | EmptyString => EmptyString
  | String c r => if isspace c then lstrip r else s
  end.

Fixpoint rstrip (s : string) : string :=
  match s with
  | EmptyString => EmptyString
  | String c r =>
      match rstrip r with
      | EmptyString => if isspace c then EmptyString else String c EmptyString
      | r' => String c r'
      end
  end.

Definition strip (s : string) : string := rstrip (lstrip s).

(** The digits of an integer literal: groups of decimal digits separated by
    single underscores.  [after_digit] tells whether the previous character
    was a digit; the literal must begin and end with one. *)
Fixpoint literal_digits (after_digit : bool) (s : string) : option string :=
  match s with
  | EmptyString => if after_digit then Some EmptyString else None
  | String c r =>
      if is_decimal c then String c <$> literal_digits true r
      else if Ascii.eqb c "_" then
        (if after_digit then literal_digits false r else None)
      else None
  end.

Definition magnitude (digits : string) : option Z :=
  Z.of_uint <$> NilZero.uint_of_string digits.

(** [int(s)] in base ten: surrounding white space, an optional sign, then
    the digits. *)
Definition int (s : string) : result Z :=
  let '(negative, body) :=
    match strip s with
    | String c r =>
        if Ascii.eqb c "+" then (false, r)
        else if Ascii.eqb c "-" then (true, r)
        else (false, String c r)
    | EmptyString => (false, EmptyString)
    end in
  match literal_digits false body ≫= magnitude with
  | Some n => Ok (if negative then - n else n)
  | None => Raise ValueError
  end.

(** [str(n)] for an integer. *)
Definition str (n : Z) : string := NilZero.string_of_int (Z.to_int n).

(** [s.split(sep)] for a separator of one character: never empty. *)
Fixpoint split (sep : ascii) (s : string) : list string :=
  match s with
  | EmptyString => [EmptyString]
  | String c r =>
      if Ascii.eqb c sep then EmptyString :: split sep r
      else match split sep r with
           | t :: ts => String c t :: ts
           | [] => [String c EmptyString]
           end
  end.

(** [sep.join(l)]. *)
Fixpoint join (sep : string) (l : list string) : string :=
  match l with
  | [] => EmptyString
  | [x] => x
  | x :: xs => x ++ sep ++ join sep xs
  end.

Fixpoint contains (c : ascii) (s : string) : bool :=
  match s with
  | EmptyString => false
  | String d r => Ascii.eqb d c || contains c r
  end.

End Py.

Import Py.

#[global] Instance result_ret : MRet Py.result := @Py.Ok.
#[global] Instance result_bind : MBind Py.result := fun A B k r => Py.bind r k.


(** ** Symbolic tensors and the external engine *)

(** A tensor handle is the term of Keras layers applied so far. *)
Inductive tensor : Type :=
| Input (shape : list Z)
| Conv2D (filters : Z) (kernel_size strides : Z * Z) (padding name : string)
         (x : tensor)
| BatchNormalization (name : string) (x : tensor)
| Activation (activation name : string) (x : tensor)
| add (name : string) (x y : tensor)
| MaxPool2D (pool_size strides : Z * Z) (x : tensor)
| AveragePooling2D (pool_size strides : Z * Z) (x : tensor)
| Flatten (x : tensor)
| Dense (units : Z) (activation : string) (x : tensor).

(** A [tf.keras.Model] object; [model_id] is its identity. *)
Record Model : Type := {
  model_id : nat;
  inputs : tensor;
  outputs : tensor
}.

Inductive ndarray : Type := Array (id : nat).

Inductive callback : Type :=
| ModelCheckpoint (filepath : string) (save_weights_only : bool)
                  (monitor mode : string) (save_best_only : bool)
| TensorBoard (log_dir update_freq : string) (histogram_freq : Z).

(** What [Model.evaluate] hands back: named by the call that produced it. *)
Inductive scores : Type :=
| Scores (m : Model) (x y : ndarray) (batch_size : Z).

(** The calls into TensorFlow made by the source. *)
Inductive call : Type :=
| clear_session
| apply_layer (out : tensor)
| new_Model (m : Model)
| summary (m : Model)
| compile (m : Model) (optimizer loss : string) (metrics : list string)
| fit (m : Model) (x y : ndarray) (batch_size epochs : Z)
      (validation_split : Q) (callbacks : list callback)
| load_weights (m : Model) (filepath : string)
| evaluate_call (m : Model) (x y : ndarray) (batch_size : Z)
| new_Adam
| new_callback (cb : callback).

(** The engine and the file system: an arbitrary transition system.  A call
    may raise, and may change what [os.path.exists] answers afterwards. *)
Record Engine : Type := {
  ext : Type;
  run : call -> ext -> option Py.exn * ext;
  path_exists : string -> ext -> bool
}.

(** ** State and exceptions *)

(** A computation over a state [S]: the state survives an exception. *)
Definition M (S A : Type) : Type := S -> Py.result A * S.

#[global] Instance M_ret {S} : MRet (M S) := fun A a s => (Py.Ok a, s).
#[global] Instance M_bind {S} : MBind (M S) := fun A B k m s =>
  match m s with
  | (Py.Ok a, s') => k a s'
  | (Py.Raise e, s') => (Py.Raise e, s')
  end.

Definition raise {S A} (e : Py.exn) : M S A := fun s => (Py.Raise e, s).
Definition gets {S A} (f : S -> A) : M S A := fun s => (Py.Ok (f s), s).
Definition modify {S} (f : S -> S) : M S unit := fun s => (Py.Ok tt, f s).

(** Run a computation on the second component of the state. *)
Definition on_snd {S1 S2 A} (m : M S2 A) : M (S1 * S2) A := fun s =>
  let '(r, s2) := m s.2 in (r, (s.1, s2)).

(** [for x in l: acc = f(x, acc)] *)
Fixpoint for_each {S A B} (l : list A) (f : A -> B -> M S B) (acc : B) : M S B :=
  match l with
  | [] => mret acc
  | x :: xs => acc' ← f x acc; for_each xs f acc'
  end.

(** [d[k]] on a dict. *)
Definition getitem {S V} (d : gmap string V) (k : string) : M S V :=
  match d !! k with
  | Some v => mret v
  | None => raise (Py.KeyError k)
  end.

(** ** The layer vocabulary *)

(** [__repr__], which [str()] and [print] fall back on. *)
Class Repr (A : Type) := repr : A -> string.

Module SkipLayer.

Record t : Type := mk {
  convolution : string;
  stride : Z * Z;
  kernel : Z * Z;
  feature_size2 : Z;
  feature_size1 : Z
}.

(** [__init__] with its defaults [kernel=(3, 3)], [stride=(1, 1)],
    [convolution='same']. *)
Definition init (feature_size1 feature_size2 : Z) : t :=
  mk "same" (1, 1) (3, 3) feature_size2 feature_size1.

#[global] Instance repr : Repr t := fun self =>
  Py.str (feature_size1 self) ++ "-" ++ Py.str (feature_size2 self).

End SkipLayer.

Module PoolingLayer.

Record t : Type := mk {
  stride : Z * Z;
  kernel : Z * Z;
  pooling_type : string
}.

(** [__init__] with its defaults [kernel=(2, 2)], [stride=(2, 2)]. *)
Definition init (pooling_type : string) : t := mk (2, 2) (2, 2) pooling_type.

Definition pooling_choices : gmap string (Z * Z -> Z * Z -> tensor -> tensor) :=
  {[ "max" := MaxPool2D; "mean" := AveragePooling2D ]}.

#[global] Instance repr : Repr t := fun self => pooling_type self.

End PoolingLayer.

(** An element of a layers list: one of the two subclasses of [Layer]. *)
Inductive layer : Type :=
| Skip (l : SkipLayer.t)
| Pooling (l : PoolingLayer.t).

#[global] Instance layer_repr : Repr layer := fun l =>
  match l with
  | Skip s => repr s
  | Pooling p => repr p
  end.

(** ** The topology codec *)

(** The [while len(layers) > 0] loop of [get_layer_from_string]; [l] is the
    list being appended to. *)
Fixpoint decode_loop (layers : list string) (l : list layer)
  : Py.result (list layer) :=
  match layers with
  | [] => Py.Ok l
  | t0 :: rest =>
      if Py.isdigit t0 then
        a ← Py.int t0;
        match rest with
        | [] => Py.Raise Py.IndexError
        | t1 :: rest' =>
            b ← Py.int t1;
            decode_loop rest' (l ++ [Skip (SkipLayer.init a b)])
        end
      else decode_loop rest (l ++ [Pooling (PoolingLayer.init t0)])
  end.

Definition get_layer_from_string (layer_definition : string)
  : Py.result (list layer) :=
  decode_loop (Py.split "-" layer_definition) [].

(** ['-'.join(map(str, layers))], the body of [CNN.generate_hash]. *)
Definition encode (layers : list layer) : string :=
  Py.join "-" (map repr layers).

(** The variant kind of a layer with the parameters its token carries. *)
Definition signature (l : layer) : Z * Z + string :=
  match l with
  | Skip s => inl (SkipLayer.feature_size1 s, SkipLayer.feature_size2 s)
  | Pooling p => inr (PoolingLayer.pooling_type p)
  end.

(** The layer [get_layer_from_string] constructs for a signature. *)
Definition of_signature (x : Z * Z + string) : layer :=
  match x with
  | inl (a, b) => Skip (SkipLayer.init a b)
  | inr k => Pooling (PoolingLayer.init k)
  end.

Definition canonical (l : layer) : layer := of_signature (signature l).

(** The tokens a layer contributes to the joined string. *)
Definition layer_tokens (l : layer) : list string :=
  match l with
  | Skip s => [Py.str (SkipLayer.feature_size1 s); Py.str (SkipLayer.feature_size2 s)]
  | Pooling p => [PoolingLayer.pooling_type p]
  end.

(** Layers whose token the decoder reads back: widths that are natural
    numbers, pooling kinds that are not digit strings and hold no ['-']. *)
Definition encodable (l : layer) : Prop :=
  match l with
  | Skip s => 0 <= SkipLayer.feature_size1 s /\ 0 <= SkipLayer.feature_size2 s
  | Pooling p =>
      Py.isdigit (PoolingLayer.pooling_type p) = false /\
      Py.contains "-" (PoolingLayer.pooling_type p) = false
  end.

Definition no_dash (t : string) : Prop := Py.contains "-" t = false.

(** ** The process: class attributes, list objects, engine *)

Section Program.

Context {E : Engine}.

Record world : Type := {
  GROUP_NUMBER : Z;                 (* [SkipLayer.GROUP_NUMBER] *)
  lists : gmap nat (list layer);    (* the list objects, by address *)
  engine : ext E;
  trace : list call;                (* engine calls made so far *)
  stdout : list string;
  next_model : nat
}.

Definition set_GROUP_NUMBER (n : Z) (w : world) : world :=
  {| GROUP_NUMBER := n; lists := lists w; engine := engine w;
     trace := trace w; stdout := stdout w; next_model := next_model w |}.

Definition set_list (a : nat) (l : list layer) (w : world) : world :=
  {| GROUP_NUMBER := GROUP_NUMBER w; lists := <[a := l]> (lists w);
     engine := engine w; trace := trace w; stdout := stdout w;
     next_model := next_model w |}.

Definition print (line : string) : M world unit := modify (fun w =>
  {| GROUP_NUMBER := GROUP_NUMBER w; lists := lists w; engine := engine w;
     trace := trace w; stdout := stdout w ++ [line];
     next_model := next_model w |}).

(** One call into the engine: recorded, and it may raise. *)
Definition engine_call (c : call) : M world unit := fun w =>
  let '(r, e') := run E c (engine w) in
  let w' := {| GROUP_NUMBER := GROUP_NUMBER w; lists := lists w;
               engine := e'; trace := trace w ++ [c]; stdout := stdout w;
               next_model := next_model w |} in
  match r with
  | Some e => (Py.Raise e, w')
  | None => (Py.Ok tt, w')
  end.

(** Build a Keras layer and apply it: the handle is the new node. *)
Definition keras (out : tensor) : M world tensor :=
  engine_call (apply_layer out);; mret out.

(** [tf.keras.Model(inputs=..., outputs=...)]: a new object each time. *)
Definition keras_Model (i o : tensor) : M world Model :=
  n ← gets next_model;
  let m := {| model_id := n; inputs := i; outputs := o |} in
  modify (fun w =>
    {| GROUP_NUMBER := GROUP_NUMBER w; lists := lists w; engine := engine w;
       trace := trace w; stdout := stdout w; next_model := S n |});;
  engine_call (new_Model m);;
  mret m.

(** The list object at an address. *)
Definition deref (a : nat) (w : world) : list layer := lists w !!! a.

(** The abstract base class [Layer]. *)
Class Layer (A : Type) := tensor_rep : A -> tensor -> M world tensor.

#[global] Instance SkipLayer_tensor_rep : Layer SkipLayer.t := fun self inputs =>
  n ← gets GROUP_NUMBER;
  let group_name := "SkipLayer_" ++ Py.str n in
  modify (set_GROUP_NUMBER (n + 1));;
  skip_layer ← keras (Conv2D (SkipLayer.feature_size1 self) (SkipLayer.kernel self)
                        (SkipLayer.stride self) (SkipLayer.convolution self)
                        (group_name ++ "/Conv1") inputs);
  skip_layer ← keras (BatchNormalization (group_name ++ "/BatchNorm1") skip_layer);
  skip_layer ← keras (Activation "relu" (group_name ++ "/ReLU1") skip_layer);
  skip_layer ← keras (Conv2D (SkipLayer.feature_size2 self) (SkipLayer.kernel self)
                        (SkipLayer.stride self) (SkipLayer.convolution self)
                        (group_name ++ "/Conv2") skip_layer);
  skip_layer ← keras (BatchNormalization (group_name ++ "/BatchNorm2") skip_layer);
  inputs ← keras (Conv2D (SkipLayer.feature_size2 self) (1, 1)
                    (SkipLayer.stride self) "valid" (group_name ++ "/Reshape") inputs);
  outputs ← keras (add (group_name ++ "/Add") inputs skip_layer);
  keras (Activation "relu" (group_name ++ "/ReLU2") outputs).

#[global] Instance PoolingLayer_tensor_rep : Layer PoolingLayer.t := fun self inputs =>
  pool ← getitem PoolingLayer.pooling_choices (PoolingLayer.pooling_type self);
  keras (pool (PoolingLayer.kernel self) (PoolingLayer.stride self) inputs).

#[global] Instance layer_tensor_rep : Layer layer := fun l inputs =>
  match l with
  | Skip s => tensor_rep s inputs
  | Pooling p => tensor_rep p inputs
  end.

(** ** The model builder *)

Record CNN : Type := {
  load_if_exist : bool;
  loss : string;
  optimizer : string;
  metrics : list string;
  output_function : tensor -> M world tensor;
  input_shape : list Z;
  layers : nat;                     (* address of the list object *)
  hash : string;
  model : option Model;
  checkpoint_filepath : string;
  callbacks : list callback
}.

Definition set_model (m : option Model) (self : CNN) : CNN :=
  {| load_if_exist := load_if_exist self; loss := loss self;
     optimizer := optimizer self; metrics := metrics self;
     output_function := output_function self;
     input_shape := input_shape self; layers := layers self;
     hash := hash self; model := m;
     checkpoint_filepath := checkpoint_filepath self;
     callbacks := callbacks self |}.

Definition set_layers (a : nat) (self : CNN) : CNN :=
  {| load_if_exist := load_if_exist self; loss := loss self;
     optimizer := optimizer self; metrics := metrics self;
     output_function := output_function self;
     input_shape := input_shape self; layers := a;
     hash := hash self; model := model self;
     checkpoint_filepath := checkpoint_filepath self;
     callbacks := callbacks self |}.

Definition MODEL_BASE_DIRECTORY : string := "./checkpoints".

(** [generate_hash] on the list object the instance points to. *)
Definition generate_hash (a : nat) (w : world) : string := encode (deref a w).

(** [CNN.__init__].  [layers] is [None] or the address of the caller's
    list, which the instance keeps (no copy).  The source's defaults are
    [optimizer=None], [loss='sparse_categorical_crossentropy'],
    [metrics=('accuracy',)], [load_if_exist=True].  Constructing the Adam
    optimizer (when none is given) and the two callbacks are engine calls, in
    the order of the source: any of them may raise, and then no instance is
    returned. *)
Definition init (input_shape : list Z) (output_function : tensor -> M world tensor)
    (layers : option nat) (optimizer : option string) (loss : string)
    (metrics : list string) (load_if_exist : bool) : M world CNN :=
  optimizer ← match optimizer with
              | None => engine_call new_Adam;; mret "Adam"
              | Some o => mret o
              end;
  a ← match layers with
      | None =>
          a ← gets (fun w => fresh (dom (lists w)));
          modify (set_list a []);; mret a
      | Some a => mret a
      end;
  h ← gets (generate_hash a);
  let checkpoint_filepath := MODEL_BASE_DIRECTORY ++ "/" ++ h ++ "/" ++ h in
  let model_checkpoint_callback :=
    ModelCheckpoint checkpoint_filepath true "val_accuracy" "max" true in
  engine_call (new_callback model_checkpoint_callback);;
  let tensorboard_callback :=
    TensorBoard ("./logs/train_data/" ++ h) "batch" 1 in
  engine_call (new_callback tensorboard_callback);;
  mret {| load_if_exist := load_if_exist; loss := loss;
          optimizer := optimizer; metrics := metrics;
          output_function := output_function; input_shape := input_shape;
          layers := a; hash := h; model := None;
          checkpoint_filepath := checkpoint_filepath;
          callbacks := [model_checkpoint_callback; tensorboard_callback] |}.

(** Methods run on the pair of the instance and the process. *)
Definition self : M (CNN * world) CNN := gets fst.

Definition generate : M (CNN * world) (option Model) :=
  this ← self;
  l ← gets (fun s => deref (layers this) s.2);
  on_snd (print ("[" ++ Py.join ", " (map repr l) ++ "]"));;
  match model this with
  | None =>
      on_snd (engine_call clear_session);;
      on_snd (modify (set_GROUP_NUMBER 1));;
      inputs ← on_snd (keras (Input (input_shape this)));
      outputs ← on_snd (for_each l tensor_rep inputs);
      outputs ← on_snd (output_function this outputs);
      m ← on_snd (keras_Model inputs outputs);
      modify (fun s => (set_model (Some m) s.1, s.2));;
      on_snd (engine_call (summary m));;
      on_snd (engine_call (compile m (optimizer this) (loss this) (metrics this)));;
      on_snd (modify (set_GROUP_NUMBER 1))
  | Some _ => mret tt
  end;;
  gets (fun s => model s.1).

Definition evaluate (data : gmap string ndarray) (batch_size : Z)
  : M (CNN * world) scores :=
  this ← self;
  match model this with
  | None => raise (Py.AttributeError "evaluate")
  | Some m =>
      x ← getitem data "x_test";
      y ← getitem data "y_test";
      on_snd (engine_call (evaluate_call m x y batch_size));;
      mret (Scores m x y batch_size)
  end.

Definition train (data : gmap string ndarray) (batch_size epochs : Z)
  : M (CNN * world) unit :=
  this ← self;
  exists_ ← gets (fun s =>
    path_exists E (MODEL_BASE_DIRECTORY ++ "/" ++ hash this ++ "/") (engine s.2));
  if load_if_exist this && exists_ then
    match model this with
    | None => raise (Py.AttributeError "load_weights")
    | Some m => on_snd (engine_call (load_weights m (checkpoint_filepath this)))
    end
  else
    match model this with
    | Some m =>
        x ← getitem data "x_train";
        y ← getitem data "y_train";
        on_snd (engine_call (fit m x y batch_size epochs 0.2%Q (callbacks this)))
    | None => mret tt
    end.

(** What addresses the checkpoints and the logs of an instance. *)
Definition addressing (c : CNN) : string * string * list callback :=
  (hash c, checkpoint_filepath c, callbacks c).

(** What a client of an instance can do next: call a method, or change a
    list object in place (the instance holds the caller's list itself). *)
Inductive op : Type :=
| call_generate
| call_train (data : gmap string ndarray) (batch_size epochs : Z)
| call_evaluate (data : gmap string ndarray) (batch_size : Z)
| mutate_list (a : nat) (l : list layer)
| assign_layers (a : nat).

(** The state after one operation, whether it returned or raised. *)
Definition exec (o : op) (s : CNN * world) : CNN * world :=
  match o with
  | call_generate => (generate s).2
  | call_train data batch_size epochs => (train data batch_size epochs s).2
  | call_evaluate data batch_size => (evaluate data batch_size s).2
  | mutate_list a l => (s.1, set_list a l s.2)
  | assign_layers a => (set_layers a s.1, s.2)
  end.

Definition exec_all (ops : list op) (s : CNN * world) : CNN * world :=
  fold_left (fun s o => exec o s) ops s.

End Program.

(** ** A never-failing engine over a set of existing paths *)

(** Used to run the program on concrete inputs. *)
Definition quiet_engine : Engine :=
  {| ext := gset string;
     run := fun _ fs => (None, fs);
     path_exists := fun p fs => bool_decide (p ∈ fs) |}.

(** A fresh process whose list objects are [heap]. *)
Definition world0 (heap : gmap nat (list layer)) (fs : gset string)
  : @world quiet_engine :=
  @Build_world quiet_engine 1 heap fs [] [] 0.

(** The output head of the [__main__] block. *)
Definition output_function0 {E : Engine} (inputs : tensor) : M (@world E) tensor :=
  out ← keras (Flatten inputs);
  keras (Dense 10 "softmax" out).

(** [CNN((28, 28, 1), output_function, layers=...)] with the defaults. *)
Definition CNN0 {E : Engine} (layers : option nat) : M (@world E) CNN :=
  init [28; 28; 1] output_function0 layers None
       "sparse_categorical_crossentropy" ["accuracy"] true.

(** Sample inputs. *)
Definition unrecognised : list layer :=
  [Skip (SkipLayer.init 32 64); Pooling (PoolingLayer.init "foo")].
Definition train_data : gmap string ndarray :=
  {[ "x_train" := Array 0; "y_train" := Array 1 ]}.
Definition swapped_a : list layer :=
  [Skip (SkipLayer.init 32 64); Pooling (PoolingLayer.init "max")].
Definition swapped_b : list layer :=
  [Pooling (PoolingLayer.init "max"); Skip (SkipLayer.init 32 64)].
Definition kernels_a : list layer :=
  [Skip (SkipLayer.mk "same" (1, 1) (3, 3) 64 32);
   Skip (SkipLayer.mk "same" (1, 1) (5, 5) 64 32)].
Definition kernels_b : list layer :=
  [Skip (SkipLayer.mk "same" (1, 1) (5, 5) 64 32);
   Skip (SkipLayer.mk "same" (1, 1) (3, 3) 64 32)].

Definition test_data : gmap string ndarray :=
  {[ "x_test" := Array 2; "y_test" := Array 3 ]}.

(** [CNN.__repr__]. *)
#[global] Instance CNN_repr {E : Engine} : Repr (@CNN E) := fun self => hash self.

(** Whether an element of a layers list is a [SkipLayer]. *)
Definition is_skip (l : layer) : bool :=
  match l with
  | Skip _ => true
  | Pooling _ => false
  end.

(** The node [SkipLayer.tensor_rep] returns when the group number it reads
    is [n]: the ReLU of the sum of the 1x1 projection of the block input and
    of the second normalized convolution. *)
Definition skip_graph (n : Z) (self : SkipLayer.t) (inputs : tensor) : tensor :=
  let group_name := "SkipLayer_" ++ Py.str n in
  Activation "relu" (group_name ++ "/ReLU2")
    (add (group_name ++ "/Add")
       (Conv2D (SkipLayer.feature_size2 self) (1, 1) (SkipLayer.stride self)
          "valid" (group_name ++ "/Reshape") inputs)
       (BatchNormalization (group_name ++ "/BatchNorm2")
          (Conv2D (SkipLayer.feature_size2 self) (SkipLayer.kernel self)
             (SkipLayer.stride self) (SkipLayer.convolution self)
             (group_name ++ "/Conv2")
             (Activation "relu" (group_name ++ "/ReLU1")
                (BatchNormalization (group_name ++ "/BatchNorm1")
                   (Conv2D (SkipLayer.feature_size1 self) (SkipLayer.kernel self)
                      (SkipLayer.stride self) (SkipLayer.convolution self)
                      (group_name ++ "/Conv1") inputs)))))).

(** The node one layer's [tensor_rep] returns when it returns, the group
    number being [n]: no node for an unrecognised pooling kind. *)
Definition layer_graph (n : Z) (l : layer) (inputs : tensor) : option tensor :=
  match l with
  | Skip s => Some (skip_graph n s inputs)
  | Pooling p =>
      pool ← PoolingLayer.pooling_choices !! PoolingLayer.pooling_type p;
      Some (pool (PoolingLayer.kernel p) (PoolingLayer.stride p) inputs)
  end.

(** The node the loop of [generate] ends with when every layer renders, the
    group number being [n] at its start. *)
Fixpoint render (n : Z) (l : list layer) (inputs : tensor) : option tensor :=
  match l with
  | [] => Some inputs
  | x :: xs =>
      outputs ← layer_graph n x inputs;
      render (if is_skip x then n + 1 else n) xs outputs
  end.

(** * Facts about the built-ins *)

Module PyFacts.

Lemma append_assoc (a b c : string) : (a ++ b) ++ c = a ++ (b ++ c).
Proof. induction a as [|x a IH]; simpl; [reflexivity | f_equal; exact IH]. Qed.

Lemma split_nonempty sep s : Py.split sep s <> [].
Proof.
  destruct s as [|c r]; simpl; [discriminate|].
  destruct (Ascii.eqb c sep); [discriminate|].
  destruct (Py.split sep r); discriminate.
Qed.

Lemma split_app sep a b :
  Py.split sep (a ++ String sep b) = (Py.split sep a ++ Py.split sep b)%list.
Proof.
  induction a as [|c a IH]; simpl.
  - now rewrite Ascii.eqb_refl.
  - destruct (Ascii.eqb c sep); [now rewrite IH|].
    rewrite IH. pose proof (split_nonempty sep a) as Hne.
    destruct (Py.split sep a); [contradiction | reflexivity].
Qed.

Lemma split_no_sep sep s : Py.contains sep s = false -> Py.split sep s = [s].
Proof.
  induction s as [|c r IH]; simpl; [reflexivity|].
  intros H. apply orb_false_iff in H as [Hc Hr].
  rewrite Hc, (IH Hr). reflexivity.
Qed.

Lemma split_tokens sep s :
  Forall (fun t => Py.contains sep t = false) (Py.split sep s).
Proof.
  induction s as [|c r IH]; simpl.
  - repeat constructor.
  - destruct (Ascii.eqb c sep) eqn:Hc.
    + constructor; [reflexivity | exact IH].
    + destruct (Py.split sep r) as [|t ts]; [repeat constructor; simpl; now rewrite Hc|].
      inversion IH; subst. constructor; [simpl; now rewrite Hc | assumption].
Qed.

Lemma split_join sep (l : list string) :
  l <> [] -> Forall (fun t => Py.contains sep t = false) l ->
  Py.split sep (Py.join (String sep EmptyString) l) = l.
Proof.
  induction l as [|x l IH]; [congruence|]. intros _ Hall.
  inversion Hall as [|? ? Hx Hl]; subst.
  destruct l as [|y l].
  - simpl. now apply split_no_sep.
  - change (Py.join (String sep EmptyString) (x :: y :: l))
      with (x ++ String sep (Py.join (String sep EmptyString) (y :: l))).
    rewrite split_app, (split_no_sep _ _ Hx), IH by (congruence || assumption).
    reflexivity.
Qed.

(** Joining the joined groups is joining their concatenation. *)
Lemma join_concat sep (ls : list (list string)) :
  Forall (fun l => l <> []) ls ->
  Py.join sep (map (Py.join sep) ls) = Py.join sep (concat ls).
Proof.
  assert (Hcons : forall (l r : list string), l <> [] -> r <> [] ->
            Py.join sep (l ++ r) = Py.join sep l ++ sep ++ Py.join sep r).
  { induction l as [|x l IH]; [congruence|]. intros r _ Hr.
    destruct l as [|y l].
    - simpl. destruct r; [congruence | reflexivity].
    - change (Py.join sep ((x :: y :: l) ++ r))
        with (x ++ sep ++ Py.join sep ((y :: l) ++ r)).
      rewrite IH by (congruence || assumption).
      change (Py.join sep (x :: y :: l)) with (x ++ sep ++ Py.join sep (y :: l)).
      now rewrite !append_assoc. }
  induction ls as [|l ls IH]; [reflexivity|].
  intros Hall. inversion Hall as [|? ? Hl Hls]; subst.
  destruct ls as [|l' ls].
  - simpl. now rewrite app_nil_r.
  - change (Py.join sep (map (Py.join sep) (l :: l' :: ls)))
      with (Py.join sep l ++ sep ++ Py.join sep (map (Py.join sep) (l' :: ls))).
    rewrite IH by assumption.
    change (concat (l :: l' :: ls)) with (l ++ concat (l' :: ls))%list.
    rewrite Hcons; [reflexivity | assumption |].
    inversion Hls; subst. simpl. destruct l'; [congruence | discriminate].
Qed.

(** *** Decimal digits *)

Lemma decimal_plain c :
  Py.is_decimal c = true ->
  Py.isspace c = false /\ Ascii.eqb c "+" = false /\
  Ascii.eqb c "-" = false /\ Ascii.eqb c "_" = false.
Proof.
  destruct c as [[] [] [] [] [] [] [] []]; simpl; intros H;
    try discriminate H; repeat split.
Qed.

Lemma decimal_no_dash s :
  Py.all_chars Py.is_decimal s = true -> Py.contains "-" s = false.
Proof.
  induction s as [|c r IH]; simpl; [reflexivity|].
  intros H. apply andb_true_iff in H as [Hc Hr].
  apply decimal_plain in Hc as (_ & _ & Hd & _). now rewrite Hd, IH.
Qed.

Lemma lstrip_decimal s :
  Py.all_chars Py.is_decimal s = true -> Py.lstrip s = s.
Proof.
  destruct s as [|c r]; simpl; [reflexivity|].
  intros H. apply andb_true_iff in H as [Hc _].
  apply decimal_plain in Hc as (Hs & _). now rewrite Hs.
Qed.

Lemma rstrip_decimal s :
  Py.all_chars Py.is_decimal s = true -> Py.rstrip s = s.
Proof.
  induction s as [|c r IH]; simpl; [reflexivity|].
  intros H. apply andb_true_iff in H as [Hc Hr].
  apply decimal_plain in Hc as (Hs & _). rewrite (IH Hr), Hs.
  now destruct r.
Qed.

Lemma literal_digits_decimal s :
  Py.all_chars Py.is_decimal s = true ->
  Py.literal_digits true s = Some s /\
  (s <> EmptyString -> Py.literal_digits false s = Some s).
Proof.
  induction s as [|c r IH]; simpl; [intros _; split; congruence|].
  intros H. apply andb_true_iff in H as [Hc Hr].
  destruct (IH Hr) as [IHt _]. rewrite Hc, IHt. split; reflexivity.
Qed.

Lemma string_of_uint_decimal (d : Decimal.uint) :
  Py.all_chars Py.is_decimal (NilEmpty.string_of_uint d) = true.
Proof. induction d; simpl; auto. Qed.

(** [str] of a natural number is a non-empty string of decimal digits
    that [int] reads back. *)
Lemma str_spec n :
  0 <= n ->
  Py.all_chars Py.is_decimal (Py.str n) = true /\
  Py.str n <> EmptyString /\
  Py.magnitude (Py.str n) = Some n.
Proof.
  intros Hn. destruct n as [|p|p]; [repeat split; discriminate | | lia].
  unfold Py.str, Py.magnitude. simpl.
  pose proof (Unsigned.to_uint_nonnil p) as Hnil.
  assert (Hs : NilZero.string_of_uint (Pos.to_uint p)
               = NilEmpty.string_of_uint (Pos.to_uint p))
    by (destruct (Pos.to_uint p); [contradiction | reflexivity ..]).
  split; [rewrite Hs; apply string_of_uint_decimal|]. split.
  - rewrite Hs. destruct (Pos.to_uint p); [contradiction | discriminate ..].
  - rewrite NilZero.usu by assumption. simpl. unfold Z.of_uint.
    now rewrite Unsigned.of_to.
Qed.

Lemma int_str n : 0 <= n -> Py.int (Py.str n) = Py.Ok n.
Proof.
  intros Hn. destruct (str_spec n Hn) as (Hdec & Hne & Hmag).
  unfold Py.int, Py.strip.
  rewrite (lstrip_decimal _ Hdec), (rstrip_decimal _ Hdec).
  destruct (Py.str n) as [|c r] eqn:Hs; [congruence|].
  pose proof Hdec as Hdec'. simpl in Hdec'.
  apply andb_true_iff in Hdec' as [Hc _].
  apply decimal_plain in Hc as (_ & Hplus & Hminus & _).
  rewrite Hplus, Hminus.
  destruct (literal_digits_decimal _ Hdec) as [_ Hlit].
  rewrite Hlit by discriminate. simpl. now rewrite Hmag.
Qed.

Lemma isdigit_str n : 0 <= n -> Py.isdigit (Py.str n) = true.
Proof.
  intros Hn. destruct (str_spec n Hn) as (Hdec & Hne & _).
  unfold Py.isdigit. destruct (Py.str n) as [|c r]; [congruence|].
  revert Hdec. generalize (String c r). clear.
  induction s as [|c r IH]; simpl; [reflexivity|].
  intros H. apply andb_true_iff in H as [Hc Hr]. now rewrite Hc, IH.
Qed.

Lemma str_no_dash n : 0 <= n -> Py.contains "-" (Py.str n) = false.
Proof. intros Hn. apply decimal_no_dash, (str_spec n Hn). Qed.

(** *** [int] on a token without a minus sign *)

Lemma contains_lstrip c s :
  Py.contains c s = false -> Py.contains c (Py.lstrip s) = false.
Proof.
  induction s as [|d r IH]; simpl; [reflexivity|].
  intros H. apply orb_false_iff in H as [Hd Hr].
  destruct (Py.isspace d); [auto | simpl; now rewrite Hd, Hr].
Qed.

Lemma contains_rstrip c s :
  Py.contains c s = false -> Py.contains c (Py.rstrip s) = false.
Proof.
  induction s as [|d r IH]; simpl; [reflexivity|].
  intros H. apply orb_false_iff in H as [Hd Hr]. specialize (IH Hr).
  destruct (Py.rstrip r).
  - destruct (Py.isspace d); simpl; [reflexivity | now rewrite Hd].
  - simpl in *. now rewrite Hd, IH.
Qed.

Lemma int_nonneg s n :
  Py.contains "-" s = false -> Py.int s = Py.Ok n -> 0 <= n.
Proof.
  intros Hs. apply contains_lstrip, contains_rstrip in Hs.
  unfold Py.int. fold (Py.strip s) in Hs.
  assert (Hmag : forall t m, Py.literal_digits false t ≫= Py.magnitude = Some m -> 0 <= m).
  { intros t m. destruct (Py.literal_digits false t) as [ds|]; simpl; [|discriminate].
    unfold Py.magnitude. destruct (NilZero.uint_of_string ds); simpl; [|discriminate].
    intros [= <-]. unfold Z.of_uint. lia. }
  destruct (Py.strip s) as [|c r]; simpl in Hs.
  - destruct (_ ≫= _) eqn:Hm; [|discriminate]. intros [= <-]. eauto.
  - apply orb_false_iff in Hs as [Hc _]. rewrite Hc.
    destruct (Ascii.eqb c "+");
      (destruct (_ ≫= _) eqn:Hm; [|discriminate]); intros [= <-]; eauto.
Qed.

End PyFacts.

(** * The topology codec *)

Module Codec.

Import PyFacts.

Lemma signature_canonical l : signature (canonical l) = signature l.
Proof. destruct l as [[]|[]]; reflexivity. Qed.

Lemma map_signature_canonical t :
  map signature (map canonical t) = map signature t.
Proof. rewrite map_map. apply map_ext, signature_canonical. Qed.

Lemma of_signature_inj x y : of_signature x = of_signature y -> x = y.
Proof.
  destruct x as [[]|], y as [[]|]; unfold of_signature, SkipLayer.init,
    PoolingLayer.init; congruence.
Qed.

(** The kinds in [pooling_choices] are encodable. *)
Lemma recognised_encodable p :
  is_Some (PoolingLayer.pooling_choices !! PoolingLayer.pooling_type p) ->
  encodable (Pooling p).
Proof.
  unfold PoolingLayer.pooling_choices. destruct p as [st ke ty]. simpl.
  intros [f Hf].
  destruct (decide (ty = "max")) as [->|Hmax]; [split; reflexivity|].
  destruct (decide (ty = "mean")) as [->|Hmean]; [split; reflexivity|].
  rewrite lookup_insert_ne, lookup_singleton_ne in Hf by congruence.
  discriminate.
Qed.

Lemma encode_tokens t :
  encode t = Py.join "-" (concat (map layer_tokens t)).
Proof.
  unfold encode. rewrite <- join_concat.
  - rewrite map_map. f_equal. apply map_ext. intros [s|p]; reflexivity.
  - induction t as [|[s|p] t IH]; simpl; constructor; (discriminate || exact IH).
Qed.

Lemma tokens_no_dash t :
  Forall encodable t -> Forall no_dash (concat (map layer_tokens t)).
Proof.
  induction 1 as [|l t Hl _ IH]; simpl; [constructor|].
  apply Forall_app; split; [|exact IH].
  destruct l as [s|p]; simpl in *.
  - destruct Hl. repeat constructor; now apply str_no_dash.
  - destruct Hl. repeat constructor; assumption.
Qed.

Lemma tokens_nonempty t : t <> [] -> concat (map layer_tokens t) <> [].
Proof. destruct t as [|[s|p] t]; [congruence | discriminate ..]. Qed.

(** The loop on the tokens of encodable layers, whatever follows them. *)
Lemma decode_loop_tokens t : forall rest acc,
  Forall encodable t ->
  decode_loop (concat (map layer_tokens t) ++ rest) acc
  = decode_loop rest (acc ++ map canonical t).
Proof.
  induction t as [|l t IH]; intros rest acc Hall; simpl.
  - now rewrite app_nil_r.
  - inversion Hall as [|? ? Hl Ht]; subst. destruct l as [s|p]; simpl in *.
    + destruct Hl as [H1 H2].
      rewrite (isdigit_str _ H1), (int_str _ H1). simpl.
      rewrite (int_str _ H2). simpl. rewrite IH by assumption.
      now rewrite <- app_assoc.
    + destruct Hl as [Hd _]. rewrite Hd, IH by assumption.
      now rewrite <- app_assoc.
Qed.

(** Decoding what [encode] produced for a non-empty encodable topology. *)
Lemma decode_encode t :
  t <> [] -> Forall encodable t ->
  get_layer_from_string (encode t) = Py.Ok (map canonical t).
Proof.
  intros Hne Hall. unfold get_layer_from_string.
  rewrite encode_tokens, split_join
    by (apply tokens_nonempty || apply tokens_no_dash; assumption).
  rewrite <- (app_nil_r (concat _)), decode_loop_tokens by assumption.
  reflexivity.
Qed.

(** Induction following the loop, which consumes one token or two. *)
Lemma tokens_ind (P : list string -> Prop) :
  P [] ->
  (forall t0 rest, P rest -> (forall t1 rest', rest = t1 :: rest' -> P rest') ->
                   P (t0 :: rest)) ->
  forall ts, P ts.
Proof.
  intros Hnil Hcons ts.
  enough (H : P ts /\ forall t1 rest', ts = t1 :: rest' -> P rest') by apply H.
  induction ts as [|t0 rest [IH1 IH2]].
  - split; [exact Hnil | discriminate].
  - split; [now apply Hcons | now intros ? ? [= <- <-]].
Qed.

(** What an accepted token list decodes to. *)
Lemma decode_loop_inv ts : forall acc l,
  Forall no_dash ts -> decode_loop ts acc = Py.Ok l ->
  exists t, l = (acc ++ t)%list /\ Forall encodable t /\ map canonical t = t /\
            (ts <> [] -> t <> []) /\
            forall rest, decode_loop (ts ++ rest) acc = decode_loop rest l.
Proof.
  induction ts as [|t0 rest IH1 IH2] using tokens_ind; intros acc l Hts Hdec.
  - injection Hdec as <-. exists []. rewrite app_nil_r. repeat split; auto.
  - inversion Hts as [|? ? H0 Hrest]; subst. simpl in Hdec.
    destruct (Py.isdigit t0) eqn:Hd.
    + destruct (Py.int t0) as [a|] eqn:Ha; [simpl in Hdec | discriminate].
      destruct rest as [|t1 rest']; [discriminate|].
      inversion Hrest as [|? ? H1 Hrest']; subst.
      destruct (Py.int t1) as [b|] eqn:Hb; [simpl in Hdec | discriminate].
      destruct (IH2 _ _ eq_refl _ _ Hrest' Hdec) as (t & -> & Hall & Hcan & _ & Happ).
      exists (Skip (SkipLayer.init a b) :: t). repeat split.
      * now rewrite <- app_assoc.
      * constructor; [|assumption].
        split; [apply (int_nonneg t0) | apply (int_nonneg t1)]; assumption.
      * simpl. now rewrite Hcan.
      * discriminate.
      * intros rest. simpl. rewrite Hd, Ha. simpl. rewrite Hb. simpl. apply Happ.
    + destruct (IH1 _ _ Hrest Hdec) as (t & -> & Hall & Hcan & _ & Happ).
      exists (Pooling (PoolingLayer.init t0) :: t). repeat split.
      * now rewrite <- app_assoc.
      * constructor; [|assumption]. split; assumption.
      * simpl. now rewrite Hcan.
      * discriminate.
      * intros rest'. simpl. rewrite Hd. apply Happ.
Qed.

Lemma isdigit_no_dash d : Py.isdigit d = true -> no_dash d.
Proof.
  unfold Py.isdigit, no_dash. destruct d as [|c r]; [discriminate|].
  generalize (String c r). clear. induction s as [|c r IH]; simpl; [reflexivity|].
  intros H. apply andb_true_iff in H as [Hc Hr]. rewrite (IH Hr), orb_false_r.
  revert Hc. clear. destruct c as [[] [] [] [] [] [] [] []]; vm_compute; congruence.
Qed.

Lemma decode_inv T l :
  get_layer_from_string T = Py.Ok l ->
  l <> [] /\ Forall encodable l /\ map canonical l = l /\
  forall rest, decode_loop (Py.split "-" T ++ rest) [] = decode_loop rest l.
Proof.
  intros H. apply decode_loop_inv in H as (t & -> & Hall & Hcan & Hne & Happ);
    [|apply split_tokens].
  simpl. repeat split; auto. apply Hne, split_nonempty.
Qed.

End Codec.

(** * Properties of the codec *)

Import PyFacts Codec.

(** C1. Whenever [get_layer_from_string] accepts a string [T], encoding the
    decoded layers and decoding again gives the very same list of layers:
    same kinds, same widths, same pooling kinds, in the same order. *)
Theorem encode_decode_stable (T : string) (l : list layer) :
  get_layer_from_string T = Py.Ok l ->
  get_layer_from_string (encode l) = Py.Ok l.
Proof.
  intros H. apply decode_inv in H as (Hne & Hall & Hcan & _).
  rewrite decode_encode by assumption. now rewrite Hcan.
Qed.

Lemma encode_decode_stable_witness :
  get_layer_from_string "032- 64-max"
  = Py.Ok [Skip (SkipLayer.init 32 64); Pooling (PoolingLayer.init "max")] /\
  encode [Skip (SkipLayer.init 32 64); Pooling (PoolingLayer.init "max")]
  = "32-64-max" /\
  get_layer_from_string
    (encode [Skip (SkipLayer.init 32 64); Pooling (PoolingLayer.init "max")])
  = Py.Ok [Skip (SkipLayer.init 32 64); Pooling (PoolingLayer.init "max")].
Proof.
  split; [reflexivity|]. split; [reflexivity|].
  apply (encode_decode_stable "032- 64-max"). reflexivity.
Defined.

(** C2, as stated, fails on the empty topology: its encoding is the empty
    string, which decodes to one pooling layer of kind [""]. *)
Lemma decode_encode_empty :
  encode [] = "" /\
  get_layer_from_string (encode []) = Py.Ok [Pooling (PoolingLayer.init "")] /\
  map signature [Pooling (PoolingLayer.init "")] <> map signature [].
Proof. repeat split; discriminate. Qed.

(** C2, amended. For every non-empty topology whose skip widths are natural
    numbers and whose pooling kinds are not digit strings and hold no ['-'],
    decoding the encoding yields layers of the same kinds with the same widths
    and pooling kinds, in the same order (kernel, stride and padding are the
    constructors' defaults). *)
Theorem decode_encode_signature (t : list layer) :
  t <> [] -> Forall encodable t ->
  exists t', get_layer_from_string (encode t) = Py.Ok t' /\
             map signature t' = map signature t /\
             t' = map canonical t.
Proof.
  intros Hne Hall. exists (map canonical t). split; [now apply decode_encode|].
  split; [apply map_signature_canonical | reflexivity].
Qed.

Lemma decode_encode_signature_witness :
  exists t',
    get_layer_from_string
      (encode [Skip (SkipLayer.mk "valid" (2, 2) (5, 5) 64 32);
               Pooling (PoolingLayer.init "mean")]) = Py.Ok t' /\
    map signature t' = [inl (32, 64); inr "mean"] /\
    t' = [Skip (SkipLayer.init 32 64); Pooling (PoolingLayer.init "mean")].
Proof.
  apply (decode_encode_signature
           [Skip (SkipLayer.mk "valid" (2, 2) (5, 5) 64 32);
            Pooling (PoolingLayer.init "mean")]).
  - discriminate.
  - repeat constructor; simpl; lia.
Defined.

(** C3, as stated, fails: ["foo"] is decoded without any error. *)
Lemma decode_foo :
  get_layer_from_string "foo" = Py.Ok [Pooling (PoolingLayer.init "foo")] /\
  ~ Py.raises (get_layer_from_string "foo").
Proof. split; [reflexivity | intros [e He]; discriminate He]. Qed.

(** C3, amended. A token that is not a digit string is decoded, alone, into a
    pooling layer of that kind, whether or not the kind is recognised: no
    error at decode time.  An unrecognised kind is rejected only when the
    layer is rendered, by a [KeyError] from the [pooling_choices] lookup,
    before any engine call of that layer. *)
Theorem decode_unrecognised_kind (k : string) :
  Py.isdigit k = false -> no_dash k ->
  PoolingLayer.pooling_choices !! k = None ->
  get_layer_from_string k = Py.Ok [Pooling (PoolingLayer.init k)] /\
  (forall T l, get_layer_from_string T = Py.Ok l ->
     get_layer_from_string (T ++ "-" ++ k)
     = Py.Ok (l ++ [Pooling (PoolingLayer.init k)])%list) /\
  (forall (E : Engine) (inputs : tensor) (w : @world E),
     tensor_rep (Pooling (PoolingLayer.init k)) inputs w
     = (Py.Raise (Py.KeyError k), w)).
Proof.
  intros Hd Hk Hnone.
  assert (Hone : forall acc, decode_loop [k] acc
                 = Py.Ok (acc ++ [Pooling (PoolingLayer.init k)])%list)
    by (intros acc; simpl; now rewrite Hd).
  split; [|split].
  - unfold get_layer_from_string. rewrite (split_no_sep _ _ Hk). apply Hone.
  - intros T l HT. apply decode_inv in HT as (_ & _ & _ & Happ).
    unfold get_layer_from_string. simpl. rewrite split_app, Happ.
    rewrite (split_no_sep _ _ Hk). apply Hone.
  - intros E inputs w. unfold tensor_rep, layer_tensor_rep, tensor_rep,
      PoolingLayer_tensor_rep, getitem, mbind, M_bind. simpl. now rewrite Hnone.
Qed.

Lemma decode_unrecognised_kind_witness :
  get_layer_from_string "foo" = Py.Ok [Pooling (PoolingLayer.init "foo")] /\
  (forall T l, get_layer_from_string T = Py.Ok l ->
     get_layer_from_string (T ++ "-" ++ "foo")
     = Py.Ok (l ++ [Pooling (PoolingLayer.init "foo")])%list) /\
  (forall (E : Engine) (inputs : tensor) (w : @world E),
     tensor_rep (Pooling (PoolingLayer.init "foo")) inputs w
     = (Py.Raise (Py.KeyError "foo"), w)).
Proof. apply (decode_unrecognised_kind "foo"); reflexivity. Defined.

(** C4. A digit token with no token after it makes decoding fail instead of
    producing layers, alone or after any accepted string: [IndexError] when
    [int] reads the token (as for ["32"]), [ValueError] otherwise. *)
Theorem decode_dangling_integer (d : string) :
  Py.isdigit d = true ->
  get_layer_from_string d = (Py.int d ≫= fun _ => Py.Raise Py.IndexError) /\
  Py.raises (get_layer_from_string d) /\
  (forall T l, get_layer_from_string T = Py.Ok l ->
     Py.raises (get_layer_from_string (T ++ "-" ++ d))).
Proof.
  intros Hd. pose proof (isdigit_no_dash _ Hd) as Hk.
  assert (Hone : forall acc, decode_loop [d] acc
                 = (Py.int d ≫= fun _ => Py.Raise Py.IndexError))
    by (intros acc; simpl; now rewrite Hd).
  assert (Hraise : Py.raises (Py.int d ≫= fun _ => @Py.Raise (list layer) Py.IndexError))
    by (destruct (Py.int d); simpl; eexists; reflexivity).
  unfold get_layer_from_string. rewrite (split_no_sep _ _ Hk), Hone.
  split; [reflexivity|]. split; [exact Hraise|].
  intros T l HT. apply decode_inv in HT as (_ & _ & _ & Happ).
  simpl. rewrite split_app, Happ, (split_no_sep _ _ Hk), Hone. exact Hraise.
Qed.

Lemma decode_dangling_integer_witness :
  get_layer_from_string "32" = Py.Raise Py.IndexError /\
  Py.raises (get_layer_from_string "32") /\
  (forall T l, get_layer_from_string T = Py.Ok l ->
     Py.raises (get_layer_from_string (T ++ "-" ++ "32"))).
Proof. apply (decode_dangling_integer "32"). reflexivity. Defined.

(** * Properties of the model builder *)

Section Builder.

Context {E : Engine}.

(** ** Construction *)

Lemma deref_set_list a l (w : @world E) : deref a (set_list a l w) = l.
Proof. unfold deref, set_list. simpl. apply lookup_total_insert_eq. Qed.

(** When [__init__] returns, the hash and the paths are those of the list
    object as it is at that moment; the engine calls made are the
    constructors of the optimizer, when none was given, and of the two
    callbacks. *)
Lemma init_spec sh head la op lo me li (w w' : @world E) (c : @CNN E) :
  init sh head la op lo me li w = (Py.Ok c, w') ->
  hash c = encode (deref (layers c) w') /\
  checkpoint_filepath c = MODEL_BASE_DIRECTORY ++ "/" ++ hash c ++ "/" ++ hash c /\
  callbacks c = [ModelCheckpoint (checkpoint_filepath c) true "val_accuracy" "max" true;
                 TensorBoard ("./logs/train_data/" ++ hash c) "batch" 1] /\
  model c = None /\
  GROUP_NUMBER w' = GROUP_NUMBER w /\
  match la with
  | Some a => layers c = a /\ lists w' = lists w
  | None =>
      lists w !! layers c = None /\ deref (layers c) w' = [] /\
      forall a, a <> layers c -> lists w' !! a = lists w !! a
  end /\
  trace w' = (trace w ++ match op with None => [new_Adam] | Some _ => [] end
                      ++ [new_callback (ModelCheckpoint (checkpoint_filepath c)
                                          true "val_accuracy" "max" true);
                          new_callback (TensorBoard ("./logs/train_data/" ++ hash c)
                                          "batch" 1)])%list.
Proof.
  unfold init, engine_call, gets, modify, mbind, mret, M_bind, M_ret.
  destruct op as [o|]; simpl;
    [|destruct (run E new_Adam (engine w)) as [[e|] e0]; simpl; [discriminate|]];
    destruct la as [a|]; simpl;
    (destruct (run E (new_callback _) _) as [[e|] e1]; simpl; [discriminate|]);
    (destruct (run E (new_callback _) _) as [[e|] e2]; simpl; [discriminate|]);
    intros [= <- <-]; simpl; rewrite <- ?app_assoc; simpl;
    repeat split; try reflexivity;
    try (unfold generate_hash; now rewrite deref_set_list);
    try apply deref_set_list;
    try (apply not_elem_of_dom, is_fresh);
    try (intros b Hb; apply lookup_insert_ne; congruence).
Qed.

(** C5, amended. The hash of an instance is the ['-']-join of the tokens of
    its layers in order.  Instances built on equal topologies have equal
    hashes; instances built on the same layers in another order have
    different hashes whenever the order of the tokens (widths and pooling
    kinds) differs, the layers being encodable. *)
Theorem hash_token_order
    sh1 head1 la1 op1 lo1 me1 li1 sh2 head2 la2 op2 lo2 me2 li2
    (w1 w2 w1' w2' : @world E) (c1 c2 : @CNN E) :
  init sh1 head1 la1 op1 lo1 me1 li1 w1 = (Py.Ok c1, w1') ->
  init sh2 head2 la2 op2 lo2 me2 li2 w2 = (Py.Ok c2, w2') ->
  let t1 := deref (layers c1) w1' in
  let t2 := deref (layers c2) w2' in
  hash c1 = Py.join "-" (map repr t1) /\
  (t1 = t2 -> hash c1 = hash c2) /\
  (Forall encodable t1 -> t1 ≡ₚ t2 -> map signature t1 <> map signature t2 ->
   hash c1 <> hash c2).
Proof.
  intros H1 H2 t1 t2.
  destruct (init_spec _ _ _ _ _ _ _ _ _ _ H1) as (Hh1 & _).
  destruct (init_spec _ _ _ _ _ _ _ _ _ _ H2) as (Hh2 & _).
  fold t1 in Hh1. fold t2 in Hh2. rewrite Hh1, Hh2.
  split; [reflexivity|]. split; [now intros ->|].
  intros Hall Hperm Hsig Henc. apply Hsig.
  assert (Hall2 : Forall encodable t2) by (now rewrite <- Hperm).
  destruct t1 as [|x t1'] eqn:Ht1.
  { apply Permutation_nil_l in Hperm. now rewrite Hperm. }
  assert (Hne2 : t2 <> []).
  { intros ->. symmetry in Hperm. now apply Permutation_nil_cons in Hperm. }
  assert (Hdec : Py.Ok (map canonical (x :: t1')) = Py.Ok (map canonical t2)).
  { rewrite <- !decode_encode by (assumption || discriminate). now rewrite Henc. }
  rewrite <- (map_signature_canonical (x :: t1')), <- (map_signature_canonical t2).
  congruence.
Qed.

(** ** Compilation *)

Ltac run_monad :=
  unfold generate, train, evaluate, self, keras_Model, keras, getitem, print,
    on_snd, gets, modify, raise, mbind, mret, M_bind, M_ret; simpl.

(** One step of symbolic execution: the next engine call, fold, user
    callback or dict lookup either raises, a case left to [tac], or
    returns. *)
Ltac step tac :=
  match goal with
  | |- context [engine_call ?c ?w] =>
      unfold engine_call at 1; simpl;
      match goal with
      | |- context [run E ?c' ?e] =>
          let e' := fresh "e" in
          destruct (run E c' e) as [[?|] e']; simpl; [solve [tac] | ]
      end
  | |- context [for_each ?l ?f ?i ?w] =>
      let w' := fresh "w" in
      destruct (for_each l f i w) as [[?|?] w']; simpl; [ | solve [tac]]
  | |- context [output_function ?c ?o ?w] =>
      let w' := fresh "w" in
      destruct (output_function c o w) as [[?|?] w']; simpl; [ | solve [tac]]
  | |- context [@lookup string _ _ _ ?k ?d] =>
      destruct (@lookup string _ _ _ k d); simpl; [ | solve [tac]]
  end.

(** A call that returns leaves a model in the instance and returns it. *)
Lemma generate_returns (c : @CNN E) (w : @world E) r s' :
  generate (c, w) = (Py.Ok r, s') ->
  exists m, r = Some m /\ model s'.1 = Some m.
Proof.
  run_monad. destruct (model c) as [m|] eqn:Hm.
  - simpl. rewrite Hm. intros [= <- <-]. eauto.
  - repeat step ltac:(discriminate). intros [= <- <-]. eauto.
Qed.

(** A compilation pass that returns: the fold over the current list starts
    with the counter at 1, and the counter is 1 at the end. *)
Lemma generate_pass (c : @CNN E) (w : @world E) r s' :
  model c = None -> generate (c, w) = (Py.Ok r, s') ->
  exists w1 o w2 o' w3 w4 m,
    GROUP_NUMBER w1 = 1 /\
    for_each (deref (layers c) w) tensor_rep (Input (input_shape c)) w1
    = (Py.Ok o, w2) /\
    output_function c o w2 = (Py.Ok o', w3) /\
    m = {| model_id := next_model w3; inputs := Input (input_shape c);
           outputs := o' |} /\
    r = Some m /\ s' = (set_model (Some m) c, w4) /\ GROUP_NUMBER w4 = 1.
Proof.
  intros Hm. run_monad. rewrite Hm.
  do 2 step ltac:(discriminate).
  match goal with
  | |- context [for_each ?l ?f ?i ?w1] =>
      destruct (for_each l f i w1) as [[o|ex] w2] eqn:Hfold; simpl; [|discriminate]
  end.
  destruct (output_function c o w2) as [[o'|ex] w3] eqn:Hhead; simpl; [|discriminate].
  repeat step ltac:(discriminate). intros [= <- <-].
  do 7 eexists. split; [|split; [exact Hfold|split; [exact Hhead|]]];
    repeat split; reflexivity.
Qed.


(** The methods leave the addressing and the list reference alone, whether
    they return or raise. *)
Lemma generate_state (s : @CNN E * @world E) :
  exists mo, (generate s).2.1 = set_model mo s.1.
Proof.
  assert (Hsame : forall c : @CNN E, exists mo, c = set_model mo c)
    by (intros c; exists (model c); now destruct c).
  destruct s as [c w]. run_monad. destruct (model c) as [m|] eqn:Hm; simpl.
  - apply Hsame.
  - repeat step ltac:(apply Hsame || (eexists; reflexivity)).
    eexists; reflexivity.
Qed.

Lemma generate_addressing (s : @CNN E * @world E) :
  addressing (generate s).2.1 = addressing s.1 /\
  layers (generate s).2.1 = layers s.1.
Proof. destruct (generate_state s) as [mo ->]. split; reflexivity. Qed.

Lemma train_state data batch_size epochs (c : @CNN E) (w : @world E) :
  (train data batch_size epochs (c, w)).2.1 = c.
Proof.
  run_monad. destruct (_ && _); destruct (model c); simpl; try reflexivity.
  - unfold engine_call. simpl. now destruct (run E _ _) as [[?|] ?].
  - repeat step ltac:(reflexivity). reflexivity.
Qed.

Lemma evaluate_state data batch_size (c : @CNN E) (w : @world E) :
  (evaluate data batch_size (c, w)).2.1 = c.
Proof.
  run_monad. destruct (model c); simpl; [|reflexivity].
  repeat step ltac:(reflexivity). reflexivity.
Qed.

Lemma exec_all_addressing ops : forall s : @CNN E * @world E,
  addressing (exec_all ops s).1 = addressing s.1.
Proof.
  unfold exec_all. induction ops as [|o ops IH]; intros s; simpl; [reflexivity|].
  rewrite IH. destruct o; simpl; try reflexivity.
  - apply generate_addressing.
  - destruct s. now rewrite train_state.
  - destruct s. now rewrite evaluate_state.
Qed.

(** C6. On an instance that already holds a model, [generate] returns
    that same model object and rebuilds nothing: the instance, the group
    counter, the engine, the calls made to it and the list objects are
    as before (only the [print] of the layers is added). *)
Theorem generate_idempotent (c : @CNN E) (w : @world E) (m : Model) :
  model c = Some m ->
  exists w', generate (c, w) = (Py.Ok (Some m), (c, w')) /\
    GROUP_NUMBER w' = GROUP_NUMBER w /\ trace w' = trace w /\
    engine w' = engine w /\ next_model w' = next_model w /\
    lists w' = lists w.
Proof.
  intros Hm. run_monad. rewrite Hm. simpl. rewrite Hm.
  eexists. split; [reflexivity|]. repeat split.
Qed.


(** C8, amended. On an instance without a model, [evaluate] raises
    [AttributeError] before any engine call; [train] raises it only when
    checkpoint reuse is enabled and the checkpoint directory exists, and
    otherwise returns without doing anything. *)
Theorem methods_before_generate (c : @CNN E) (w : @world E) data batch_size epochs :
  model c = None ->
  evaluate data batch_size (c, w)
  = (Py.Raise (Py.AttributeError "evaluate"), (c, w)) /\
  train data batch_size epochs (c, w)
  = (if load_if_exist c &&
        path_exists E (MODEL_BASE_DIRECTORY ++ "/" ++ hash c ++ "/") (engine w)
     then Py.Raise (Py.AttributeError "load_weights") else Py.Ok tt,
     (c, w)).
Proof.
  intros Hm. run_monad. rewrite Hm. split; [reflexivity|].
  now destruct (_ && _).
Qed.

(** C9. On an instance that holds a model, with checkpoint reuse enabled:
    if the checkpoint directory of the hash exists, [train] hands
    [load_weights] on the checkpoint path to the engine, and nothing else;
    otherwise, the data holding the training arrays, it hands it [fit] with
    [validation_split] 0.2 and the instance's callbacks.  In both cases the
    engine is left as that one call leaves it, and [train] raises what the
    call raises and returns otherwise. *)
Theorem train_reuses_checkpoint (c : @CNN E) (w : @world E) (m : Model)
    data batch_size epochs :
  model c = Some m -> load_if_exist c = true ->
  let dir := MODEL_BASE_DIRECTORY ++ "/" ++ hash c ++ "/" in
  (path_exists E dir (engine w) = true ->
   exists r w', train data batch_size epochs (c, w) = (r, (c, w')) /\
     trace w' = (trace w ++ [load_weights m (checkpoint_filepath c)])%list /\
     engine w' = (run E (load_weights m (checkpoint_filepath c)) (engine w)).2 /\
     r = match (run E (load_weights m (checkpoint_filepath c)) (engine w)).1 with
         | Some e => Py.Raise e
         | None => Py.Ok tt
         end) /\
  (path_exists E dir (engine w) = false ->
   forall x y, data !! "x_train" = Some x -> data !! "y_train" = Some y ->
   exists r w', train data batch_size epochs (c, w) = (r, (c, w')) /\
     trace w' = (trace w ++ [fit m x y batch_size epochs 0.2%Q (callbacks c)])%list /\
     engine w'
     = (run E (fit m x y batch_size epochs 0.2%Q (callbacks c)) (engine w)).2 /\
     r = match (run E (fit m x y batch_size epochs 0.2%Q (callbacks c))
                  (engine w)).1 with
         | Some e => Py.Raise e
         | None => Py.Ok tt
         end).
Proof.
  intros Hm Hload dir. unfold dir. clear dir.
  split; [intros Hex | intros Hex x y Hx Hy]; run_monad; simpl in Hex;
    rewrite Hm, Hload, Hex; simpl; [|rewrite Hx, Hy; simpl];
    unfold engine_call; simpl; destruct (run E _ _) as [[e|] e'];
    do 2 eexists; repeat split.
Qed.

End Builder.

(** Supply the instances and the states two concrete constructions
    evaluate to. *)
Ltac exists_two_runs tm1 tm2 :=
  let r1 := eval vm_compute in tm1 in
  let r2 := eval vm_compute in tm2 in
  match r1 with
  | (Py.Ok ?c1, ?w1) =>
      match r2 with
      | (Py.Ok ?c2, ?w2) => exists c1, c2, w1, w2
      end
  end.

Lemma hash_token_order_witness :
  exists c1 c2 w1' w2',
    CNN0 (Some 0%nat) (world0 {[ 0%nat := swapped_a ]} ∅) = (Py.Ok c1, w1') /\
    CNN0 (Some 0%nat) (world0 {[ 0%nat := swapped_b ]} ∅) = (Py.Ok c2, w2') /\
    hash c1 = "32-64-max" /\ hash c2 = "max-32-64" /\
    hash c1 = Py.join "-" (map repr (deref (layers c1) w1')) /\
    (deref (layers c1) w1' = deref (layers c2) w2' -> hash c1 = hash c2) /\
    hash c1 <> hash c2.
Proof.
  exists_two_runs
    (CNN0 (E := quiet_engine) (Some 0%nat) (world0 {[ 0%nat := swapped_a ]} ∅))
    (CNN0 (E := quiet_engine) (Some 0%nat) (world0 {[ 0%nat := swapped_b ]} ∅)).
  match goal with |- ?e1 /\ ?e2 /\ _ =>
    assert (H1 : e1) by reflexivity; assert (H2 : e2) by reflexivity
  end.
  split; [exact H1|]. split; [exact H2|].
  split; [reflexivity|]. split; [reflexivity|].
  unfold CNN0 in H1, H2.
  destruct (hash_token_order _ _ _ _ _ _ _ _ _ _ _ _ _ _ _ _ _ _ _ _ H1 H2)
    as (Hjoin & Hsame & Hdiff).
  split; [exact Hjoin|]. split; [exact Hsame|].
  apply Hdiff.
  - repeat constructor; simpl; lia.
  - apply perm_swap.
  - discriminate.
Defined.

(** C5, as stated, fails: two skip layers that differ only in their kernel
    share the token ["32-64"], so both orders of them hash alike. *)

Lemma hash_same_in_both_orders :
  exists c1 c2 w1' w2',
    CNN0 (Some 0%nat) (world0 {[ 0%nat := kernels_a ]} ∅) = (Py.Ok c1, w1') /\
    CNN0 (Some 0%nat) (world0 {[ 0%nat := kernels_b ]} ∅) = (Py.Ok c2, w2') /\
    kernels_a ≡ₚ kernels_b /\ kernels_a <> kernels_b /\
    hash c1 = "32-64-32-64" /\ hash c2 = "32-64-32-64".
Proof.
  exists_two_runs
    (CNN0 (E := quiet_engine) (Some 0%nat) (world0 {[ 0%nat := kernels_a ]} ∅))
    (CNN0 (E := quiet_engine) (Some 0%nat) (world0 {[ 0%nat := kernels_b ]} ∅)).
  split; [reflexivity|]. split; [reflexivity|].
  split; [apply perm_swap|]. split; [discriminate|]. split; reflexivity.
Qed.

(** ** The builder on concrete inputs *)

(** Supply the value and the final state a concrete run evaluates to. *)
Ltac exists_run tm :=
  let r := eval vm_compute in tm in
  match r with
  | (Py.Ok ?a, ?s) => exists a, s
  end.


Lemma generate_idempotent_witness :
  exists (c0 : @CNN quiet_engine) w0,
    CNN0 (Some 0%nat) (world0 {[ 0%nat := swapped_a ]} ∅) = (Py.Ok c0, w0) /\
    exists r s,
      generate (c0, w0) = (Py.Ok r, s) /\
      exists m, r = Some m /\ model s.1 = Some m /\
      exists w', generate s = (Py.Ok (Some m), (s.1, w')) /\
        GROUP_NUMBER w' = GROUP_NUMBER s.2 /\ trace w' = trace s.2 /\
        engine w' = engine s.2 /\ next_model w' = next_model s.2 /\
        lists w' = lists s.2.
Proof.
  exists_run (CNN0 (E := quiet_engine) (Some 0%nat) (world0 {[ 0%nat := swapped_a ]} ∅)).
  split; [reflexivity|].
  match goal with |- exists r s, ?g = _ /\ _ => exists_run g end.
  split; [reflexivity|].
  eexists. split; [reflexivity|]. split; [reflexivity|].
  match goal with |- context [generate (?c, ?w)] =>
    apply (generate_idempotent c w) end.
  reflexivity.
Defined.



(** C8, as stated, fails for [train]: on a new instance with no checkpoint
    directory, [train] returns normally and nothing has happened. *)
Lemma train_before_generate_returns :
  exists (c : @CNN quiet_engine) w,
    CNN0 (Some 0%nat) (world0 {[ 0%nat := swapped_a ]} ∅) = (Py.Ok c, w) /\
    model c = None /\
    train train_data 64 1 (c, w) = (Py.Ok tt, (c, w)).
Proof.
  exists_run (CNN0 (E := quiet_engine) (Some 0%nat) (world0 {[ 0%nat := swapped_a ]} ∅)).
  split; [reflexivity|]. split; reflexivity.
Qed.

Lemma methods_before_generate_witness :
  exists (c : @CNN quiet_engine) w,
    CNN0 (Some 0%nat)
      (world0 {[ 0%nat := swapped_a ]} {[ "./checkpoints/32-64-max/" ]})
    = (Py.Ok c, w) /\
    model c = None /\
    evaluate train_data 64 (c, w)
    = (Py.Raise (Py.AttributeError "evaluate"), (c, w)) /\
    train train_data 64 1 (c, w)
    = (Py.Raise (Py.AttributeError "load_weights"), (c, w)).
Proof.
  exists_run (CNN0 (E := quiet_engine) (Some 0%nat)
                (world0 {[ 0%nat := swapped_a ]} {[ "./checkpoints/32-64-max/" ]})).
  split; [reflexivity|]. split; [reflexivity|].
  match goal with |- context [evaluate _ _ (?c, ?w)] =>
    apply (methods_before_generate c w train_data 64 1) end.
  reflexivity.
Defined.

Lemma train_reuses_checkpoint_witness :
  (exists (c0 : @CNN quiet_engine) w0,
     CNN0 (Some 0%nat)
       (world0 {[ 0%nat := swapped_a ]} {[ "./checkpoints/32-64-max/" ]})
     = (Py.Ok c0, w0) /\
     exists m c w,
       generate (c0, w0) = (Py.Ok (Some m), (c, w)) /\
       model c = Some m /\ load_if_exist c = true /\
       path_exists quiet_engine "./checkpoints/32-64-max/" (engine w) = true /\
       exists r' w', train train_data 64 1 (c, w) = (r', (c, w')) /\
         trace w' = (trace w ++
                     [load_weights m "./checkpoints/32-64-max/32-64-max"])%list /\
         engine w' = engine w /\ r' = Py.Ok tt) /\
  (exists (c0 : @CNN quiet_engine) w0,
     CNN0 (Some 0%nat) (world0 {[ 0%nat := swapped_a ]} ∅) = (Py.Ok c0, w0) /\
     exists m c w,
       generate (c0, w0) = (Py.Ok (Some m), (c, w)) /\
       model c = Some m /\ load_if_exist c = true /\
       path_exists quiet_engine "./checkpoints/32-64-max/" (engine w) = false /\
       exists r' w', train train_data 64 1 (c, w) = (r', (c, w')) /\
         trace w' = (trace w ++
                     [fit m (Array 0) (Array 1) 64 1 0.2%Q (callbacks c)])%list /\
         engine w' = engine w /\ r' = Py.Ok tt).
Proof.
  split.
  - exists_run (CNN0 (E := quiet_engine) (Some 0%nat)
                  (world0 {[ 0%nat := swapped_a ]} {[ "./checkpoints/32-64-max/" ]})).
    split; [reflexivity|].
    match goal with |- exists m c w, generate ?s = _ /\ _ =>
      let v := eval vm_compute in (generate s) in
      match v with
      | (Py.Ok (Some ?m), (?c, ?w)) =>
          exists m, c, w; do 4 (split; [reflexivity|]);
          exact (proj1 (train_reuses_checkpoint c w m train_data 64 1
                          eq_refl eq_refl) eq_refl)
      end
    end.
  - exists_run (CNN0 (E := quiet_engine) (Some 0%nat)
                  (world0 {[ 0%nat := swapped_a ]} ∅)).
    split; [reflexivity|].
    match goal with |- exists m c w, generate ?s = _ /\ _ =>
      let v := eval vm_compute in (generate s) in
      match v with
      | (Py.Ok (Some ?m), (?c, ?w)) =>
          exists m, c, w; do 4 (split; [reflexivity|]);
          exact (proj2 (train_reuses_checkpoint c w m train_data 64 1
                          eq_refl eq_refl) eq_refl (Array 0) (Array 1)
                   eq_refl eq_refl)
      end
    end.
Defined.

(** * Further properties of the codec *)

(** The loop only appends to the list it is given. *)
Lemma decode_loop_acc ts : forall acc,
  decode_loop ts acc = (l ← decode_loop ts []; Py.Ok (acc ++ l)%list).
Proof.
  induction ts as [|t0 rest IH1 IH2] using tokens_ind; intros acc; simpl.
  - now rewrite app_nil_r.
  - destruct (Py.isdigit t0).
    + destruct (Py.int t0) as [a|]; simpl; [|reflexivity].
      destruct rest as [|t1 rest']; [reflexivity|].
      destruct (Py.int t1) as [b|]; simpl; [|reflexivity].
      rewrite (IH2 _ _ eq_refl (acc ++ _)%list), (IH2 _ _ eq_refl [_]).
      destruct (decode_loop rest' []); simpl; [|reflexivity].
      now rewrite <- app_assoc.
    + rewrite (IH1 (acc ++ _)%list), (IH1 [_]).
      destruct (decode_loop rest []); simpl; [|reflexivity].
      now rewrite <- app_assoc.
Qed.

Lemma int_raises_ValueError s e : Py.int s = Py.Raise e -> e = Py.ValueError.
Proof.
  unfold Py.int. destruct (Py.strip s) as [|c r].
  - destruct (_ ≫= _); [discriminate | congruence].
  - destruct (Ascii.eqb c "+"); [|destruct (Ascii.eqb c "-")];
      (destruct (_ ≫= _); [discriminate | congruence]).
Qed.

(** X1. What an accepted string decodes to is never the empty list, and each
    layer is either a skip layer with the default kernel, stride and padding
    and two non-negative widths, or a pooling layer with the default kernel
    and stride whose kind is not a digit string and holds no ['-']. *)
Theorem decode_result_shape (T : string) (l : list layer) :
  get_layer_from_string T = Py.Ok l ->
  l <> [] /\
  Forall (fun x =>
    (exists a b, x = Skip (SkipLayer.init a b) /\ 0 <= a /\ 0 <= b) \/
    (exists k, x = Pooling (PoolingLayer.init k) /\
               Py.isdigit k = false /\ Py.contains "-" k = false)) l.
Proof.
  intros H. apply decode_inv in H as (Hne & Hall & Hcan & _).
  split; [exact Hne|]. clear Hne.
  induction Hall as [|x l Hx Hl IH]; [constructor|].
  injection Hcan as Hx' Hl'. constructor; [|now apply IH].
  destruct x as [s|p]; simpl in *.
  - left. exists (SkipLayer.feature_size1 s), (SkipLayer.feature_size2 s).
    split; [now rewrite <- Hx' at 1 | exact Hx].
  - right. exists (PoolingLayer.pooling_type p).
    split; [now rewrite <- Hx' at 1 | exact Hx].
Qed.

Lemma decode_result_shape_witness :
  get_layer_from_string "" = Py.Ok [Pooling (PoolingLayer.init "")] /\
  [Pooling (PoolingLayer.init "")] <> [] /\
  Forall (fun x =>
    (exists a b, x = Skip (SkipLayer.init a b) /\ 0 <= a /\ 0 <= b) \/
    (exists k, x = Pooling (PoolingLayer.init k) /\
               Py.isdigit k = false /\ Py.contains "-" k = false))
    [Pooling (PoolingLayer.init "")].
Proof. split; [reflexivity|]. apply (decode_result_shape ""). reflexivity. Defined.

(** X2. Decoding distributes over ['-']: after an accepted string [T1], the
    string [T1-T2] decodes to the layers of [T1] followed by those of [T2],
    and fails exactly as [T2] does when [T2] is rejected. *)
Theorem decode_concat (T1 T2 : string) (l1 : list layer) :
  get_layer_from_string T1 = Py.Ok l1 ->
  get_layer_from_string (T1 ++ "-" ++ T2)
  = (l2 ← get_layer_from_string T2; Py.Ok (l1 ++ l2)%list).
Proof.
  intros H. apply decode_inv in H as (_ & _ & _ & Happ).
  unfold get_layer_from_string. simpl.
  now rewrite split_app, Happ, decode_loop_acc.
Qed.

Lemma decode_concat_witness :
  get_layer_from_string "32-64" = Py.Ok [Skip (SkipLayer.init 32 64)] /\
  get_layer_from_string ("32-64" ++ "-" ++ "max-7")
  = (l2 ← get_layer_from_string "max-7";
     Py.Ok ([Skip (SkipLayer.init 32 64)] ++ l2)%list) /\
  get_layer_from_string "32-64-max-7" = Py.Raise Py.IndexError.
Proof.
  split; [reflexivity|]. split; [|reflexivity].
  apply (decode_concat "32-64" "max-7"). reflexivity.
Defined.

Lemma join_app sep (l r : list string) :
  l <> [] -> r <> [] ->
  Py.join sep (l ++ r) = Py.join sep l ++ sep ++ Py.join sep r.
Proof.
  induction l as [|x l IH]; [congruence|]. intros _ Hr.
  destruct l as [|y l].
  - simpl. destruct r; [congruence | reflexivity].
  - change (Py.join sep ((x :: y :: l) ++ r))
      with (x ++ sep ++ Py.join sep ((y :: l) ++ r)).
    rewrite IH by (congruence || assumption).
    change (Py.join sep (x :: y :: l)) with (x ++ sep ++ Py.join sep (y :: l)).
    now rewrite !append_assoc.
Qed.

(** X3. The hash of two non-empty topologies put end to end is the two
    hashes joined by ['-']. *)
Theorem encode_app (t1 t2 : list layer) :
  t1 <> [] -> t2 <> [] ->
  encode (t1 ++ t2) = encode t1 ++ "-" ++ encode t2.
Proof.
  intros H1 H2. unfold encode. rewrite map_app.
  apply join_app; (destruct t1, t2; simpl; congruence).
Qed.

Lemma encode_app_witness :
  encode (swapped_a ++ swapped_b) = encode swapped_a ++ "-" ++ encode swapped_b /\
  encode (swapped_a ++ swapped_b) = "32-64-max-max-32-64".
Proof. split; [apply encode_app; discriminate | reflexivity]. Defined.

(** X4. A digit token followed by a token that [int] rejects, such as a
    pooling keyword, makes decoding fail with [ValueError], whatever comes
    after the two tokens. *)
Theorem decode_width_then_keyword (d t : string) :
  Py.isdigit d = true -> no_dash t -> Py.int t = Py.Raise Py.ValueError ->
  get_layer_from_string (d ++ "-" ++ t) = Py.Raise Py.ValueError /\
  forall T, get_layer_from_string (d ++ "-" ++ t ++ "-" ++ T)
            = Py.Raise Py.ValueError.
Proof.
  intros Hd Ht Hint. pose proof (isdigit_no_dash _ Hd) as Hk.
  assert (Hloop : forall rest, decode_loop (d :: t :: rest) []
                               = Py.Raise Py.ValueError).
  { intros rest. simpl. rewrite Hd.
    destruct (Py.int d) as [a|e] eqn:Ha; simpl.
    - now rewrite Hint.
    - now rewrite (int_raises_ValueError _ _ Ha). }
  unfold get_layer_from_string. simpl. split.
  - rewrite split_app, (split_no_sep _ _ Hk), (split_no_sep _ _ Ht). apply Hloop.
  - intros T. rewrite split_app, split_app, (split_no_sep _ _ Hk),
      (split_no_sep _ _ Ht). apply Hloop.
Qed.

Lemma decode_width_then_keyword_witness :
  get_layer_from_string ("32" ++ "-" ++ "max") = Py.Raise Py.ValueError /\
  forall T, get_layer_from_string ("32" ++ "-" ++ "max" ++ "-" ++ T)
            = Py.Raise Py.ValueError.
Proof. apply (decode_width_then_keyword "32" "max"); reflexivity. Defined.

(** X5. Two non-empty topologies of encodable layers have the same hash only
    if they have the same kinds, widths and pooling kinds in the same order:
    apart from kernel, stride and padding, the hash determines the
    topology. *)
Theorem encode_injective (t1 t2 : list layer) :
  t1 <> [] -> t2 <> [] -> Forall encodable t1 -> Forall encodable t2 ->
  encode t1 = encode t2 -> map signature t1 = map signature t2.
Proof.
  intros Hne1 Hne2 Hall1 Hall2 Henc.
  assert (Hdec : Py.Ok (map canonical t1) = Py.Ok (map canonical t2)).
  { rewrite <- !decode_encode by assumption. now rewrite Henc. }
  rewrite <- (map_signature_canonical t1), <- (map_signature_canonical t2).
  congruence.
Qed.

Lemma encode_injective_witness :
  encode [Skip (SkipLayer.mk "same" (1, 1) (3, 3) 64 32)]
  = encode [Skip (SkipLayer.mk "valid" (2, 2) (5, 5) 64 32)] /\
  map signature [Skip (SkipLayer.mk "same" (1, 1) (3, 3) 64 32)]
  = map signature [Skip (SkipLayer.mk "valid" (2, 2) (5, 5) 64 32)].
Proof.
  split; [reflexivity|].
  apply encode_injective; try discriminate; try reflexivity;
    repeat constructor; simpl; lia.
Defined.

Lemma digit_char_plain c :
  Py.is_decimal c || Py.is_superscript c = true ->
  Py.isspace c = false /\ Ascii.eqb c "+" = false /\
  Ascii.eqb c "-" = false /\ Ascii.eqb c "_" = false.
Proof.
  destruct c as [[] [] [] [] [] [] [] []]; vm_compute; intros H;
    try discriminate H; repeat split.
Qed.

Lemma rstrip_digits s :
  Py.all_chars (fun c => Py.is_decimal c || Py.is_superscript c) s = true ->
  Py.rstrip s = s.
Proof.
  induction s as [|c r IH]; simpl; [reflexivity|].
  intros H. apply andb_true_iff in H as [Hc Hr].
  apply digit_char_plain in Hc as (Hs & _). rewrite (IH Hr), Hs.
  now destruct r.
Qed.

Lemma literal_digits_superscript s : forall b,
  Py.all_chars (fun c => Py.is_decimal c || Py.is_superscript c) s = true ->
  Py.all_chars Py.is_decimal s = false ->
  Py.literal_digits b s = None.
Proof.
  induction s as [|c r IH]; simpl; intros b Hall Hdec; [discriminate|].
  apply andb_true_iff in Hall as [Hc Hr].
  apply digit_char_plain in Hc as (_ & _ & _ & Hu).
  destruct (Py.is_decimal c) eqn:Hd; simpl in *.
  - now rewrite (IH true Hr Hdec).
  - now rewrite Hu.
Qed.

(** X6. A token of digits that holds a superscript digit passes the
    [isdigit()] test of the loop but is rejected by [int()]: decoding fails
    with [ValueError], whatever follows the token. *)
Theorem decode_superscript_digit (d : string) :
  Py.isdigit d = true -> Py.all_chars Py.is_decimal d = false ->
  Py.int d = Py.Raise Py.ValueError /\
  get_layer_from_string d = Py.Raise Py.ValueError /\
  forall T, get_layer_from_string (d ++ "-" ++ T) = Py.Raise Py.ValueError.
Proof.
  intros Hd Hdec. pose proof (isdigit_no_dash _ Hd) as Hk.
  assert (Hint : Py.int d = Py.Raise Py.ValueError).
  { unfold Py.isdigit in Hd. destruct d as [|c r]; [discriminate|].
    unfold Py.int, Py.strip.
    pose proof Hd as Hc. simpl in Hc. apply andb_true_iff in Hc as [Hc _].
    apply digit_char_plain in Hc as (Hs & Hplus & Hminus & _).
    assert (Hl : Py.lstrip (String c r) = String c r) by (simpl; now rewrite Hs).
    rewrite Hl, (rstrip_digits _ Hd), Hplus, Hminus.
    now rewrite (literal_digits_superscript _ false Hd Hdec). }
  assert (Hloop : forall rest, decode_loop (d :: rest) [] = Py.Raise Py.ValueError)
    by (intros rest; simpl; now rewrite Hd, Hint).
  split; [exact Hint|]. unfold get_layer_from_string. split.
  - rewrite (split_no_sep _ _ Hk). apply Hloop.
  - intros T. simpl. rewrite split_app, (split_no_sep _ _ Hk). apply Hloop.
Qed.

Lemma decode_superscript_digit_witness :
  Py.int (String (ascii_of_nat 178) "5") = Py.Raise Py.ValueError /\
  get_layer_from_string (String (ascii_of_nat 178) "5") = Py.Raise Py.ValueError /\
  forall T, get_layer_from_string (String (ascii_of_nat 178) "5" ++ "-" ++ T)
            = Py.Raise Py.ValueError.
Proof.
  apply (decode_superscript_digit (String (ascii_of_nat 178) "5")); reflexivity.
Defined.

(** * Further properties of the layers and of the builder *)

Section Rendering.

Context {E : Engine}.

Ltac exec_monad :=
  unfold generate, train, evaluate, self, keras_Model, keras, getitem, print,
    on_snd, gets, modify, raise, mbind, mret, M_bind, M_ret; simpl.

(** The next engine call either raises, a case left to [tac], or returns. *)
Ltac next tac :=
  unfold engine_call at 1; simpl;
  match goal with
  | |- context [run E ?c ?e] =>
      let e' := fresh "e" in
      destruct (run E c e) as [[?|] e']; simpl; [solve [tac] | ]
  end.

(** What rendering a skip layer does to the process, whatever the engine
    answers. *)
Lemma skip_rep (s : SkipLayer.t) (x : tensor) (w : @world E) :
  exists r w' calls,
    tensor_rep (Skip s) x w = (r, w') /\
    GROUP_NUMBER w' = GROUP_NUMBER w + 1 /\
    lists w' = lists w /\
    trace w' = (trace w ++ calls)%list /\
    (length calls <= 8)%nat /\
    (r = Py.Ok (skip_graph (GROUP_NUMBER w) s x) /\ length calls = 8%nat \/
     exists e, r = Py.Raise e).
Proof.
  unfold tensor_rep, layer_tensor_rep, tensor_rep, SkipLayer_tensor_rep.
  exec_monad.
  do 8 next ltac:(eexists _, _, _; split; [reflexivity|]; simpl;
                  rewrite <- ?app_assoc; repeat split; try reflexivity;
                  simpl; first [lia | right; eexists; reflexivity]).
  eexists _, _, _; split; [reflexivity|]; simpl;
    rewrite <- ?app_assoc; repeat split; try reflexivity; simpl;
    first [lia | left; split; reflexivity].
Qed.

(** What rendering a pooling layer does. *)
Lemma pooling_rep (p : PoolingLayer.t) (x : tensor) (w : @world E) :
  match PoolingLayer.pooling_choices !! PoolingLayer.pooling_type p with
  | None =>
      tensor_rep (Pooling p) x w
      = (Py.Raise (Py.KeyError (PoolingLayer.pooling_type p)), w)
  | Some pool =>
      let out := pool (PoolingLayer.kernel p) (PoolingLayer.stride p) x in
      exists r w',
        tensor_rep (Pooling p) x w = (r, w') /\
        GROUP_NUMBER w' = GROUP_NUMBER w /\
        lists w' = lists w /\
        trace w' = (trace w ++ [apply_layer out])%list /\
        (r = Py.Ok out \/ exists e, r = Py.Raise e)
  end.
Proof.
  unfold tensor_rep, layer_tensor_rep, tensor_rep, PoolingLayer_tensor_rep.
  exec_monad.
  destruct (PoolingLayer.pooling_choices !! PoolingLayer.pooling_type p)
    as [pool|]; simpl; [|reflexivity].
  unfold engine_call. simpl.
  destruct (run E _ (engine w)) as [[e|] e']; simpl;
    do 2 eexists; (split; [reflexivity|]); simpl; repeat split; eauto.
Qed.

(** A layer that renders returns the node [layer_graph] names. *)
Lemma layer_rep_ok (l : layer) (x o : tensor) (w w' : @world E) :
  tensor_rep l x w = (Py.Ok o, w') ->
  layer_graph (GROUP_NUMBER w) l x = Some o /\
  GROUP_NUMBER w' = (if is_skip l then GROUP_NUMBER w + 1 else GROUP_NUMBER w) /\
  lists w' = lists w.
Proof.
  intros H. destruct l as [s|p]; simpl.
  - destruct (skip_rep s x w) as (r & w1 & calls & Hr & Hn & Hl & _ & _ & Hres).
    rewrite H in Hr. injection Hr as <- <-.
    destruct Hres as [[[= ->] _] | [e [=]]]. auto.
  - pose proof (pooling_rep p x w) as Hp.
    destruct (PoolingLayer.pooling_choices !! PoolingLayer.pooling_type p)
      as [pool|]; simpl in *.
    + destruct Hp as (r & w1 & Hr & Hn & Hl & _ & Hres).
      rewrite H in Hr. injection Hr as <- <-.
      destruct Hres as [[= ->] | [e [=]]]. auto.
    + rewrite H in Hp. discriminate.
Qed.

Lemma fold_ok (l : list layer) : forall (x o : tensor) (w w' : @world E),
  for_each l tensor_rep x w = (Py.Ok o, w') ->
  render (GROUP_NUMBER w) l x = Some o /\
  GROUP_NUMBER w' = GROUP_NUMBER w + Z.of_nat (length (List.filter is_skip l)) /\
  lists w' = lists w.
Proof.
  induction l as [|a l IH]; intros x o w w' H; simpl in *.
  - injection H as <- <-. repeat split. lia.
  - unfold mbind, M_bind in H.
    destruct (tensor_rep a x w) as [[o1|e] w1] eqn:Ha; [|discriminate].
    apply layer_rep_ok in Ha as (Hg & Hn & Hl). rewrite Hg. simpl.
    apply IH in H as (Hr & Hn' & Hl'). rewrite <- Hn, Hr, Hn', Hl', Hl, Hn.
    repeat split. destruct (is_skip a); simpl length; lia.
Qed.

Lemma render_unrecognised (p : PoolingLayer.t) (l : list layer) :
  In (Pooling p) l ->
  PoolingLayer.pooling_choices !! PoolingLayer.pooling_type p = None ->
  forall n x, render n l x = None.
Proof.
  intros Hin Hnone. induction l as [|a l IH]; [contradiction|].
  intros n x. simpl. destruct Hin as [-> | Hin].
  - simpl. now rewrite Hnone.
  - destruct (layer_graph n a x); simpl; [now apply IH | reflexivity].
Qed.




(** X9. When the loop of [generate] over a list returns, the node it ends
    with is the one [render] computes from the list, the input handle and
    the group number at the start alone, whatever the engine answered; the
    counter has advanced by the number of skip layers in the list, and the
    list objects are as before. *)
Theorem fold_renders (l : list layer) (x o : tensor) (w w' : @world E) :
  for_each l tensor_rep x w = (Py.Ok o, w') ->
  render (GROUP_NUMBER w) l x = Some o /\
  GROUP_NUMBER w' = GROUP_NUMBER w + Z.of_nat (length (List.filter is_skip l)) /\
  lists w' = lists w.
Proof. apply fold_ok. Qed.

End Rendering.

Lemma fold_renders_witness :
  exists o (w' : @world quiet_engine),
    for_each swapped_a tensor_rep (Input [28; 28; 1]) (world0 ∅ ∅) = (Py.Ok o, w') /\
    render 1 swapped_a (Input [28; 28; 1]) = Some o /\
    GROUP_NUMBER w' = 1 + Z.of_nat (length (List.filter is_skip swapped_a)) /\
    lists w' = ∅.
Proof.
  exists_run (for_each (S := @world quiet_engine) swapped_a tensor_rep
                (Input [28; 28; 1]) (world0 ∅ ∅)).
  split; [reflexivity|].
  match goal with |- context [GROUP_NUMBER ?w'] =>
    apply (fold_renders swapped_a (Input [28; 28; 1]) _ (world0 ∅ ∅) w')
  end.
  reflexivity.
Defined.

Section Methods.

Context {E : Engine}.

Ltac exec_monad :=
  unfold generate, train, evaluate, self, keras_Model, keras, getitem, print,
    on_snd, gets, modify, raise, mbind, mret, M_bind, M_ret; simpl.

Ltac next tac :=
  unfold engine_call at 1; simpl;
  match goal with
  | |- context [run E ?c ?e] =>
      let e' := fresh "e" in
      destruct (run E c e) as [[?|] e']; simpl; [solve [tac] | ]
  end.

(** X10. [generate] cannot return when the list of the instance holds a
    pooling layer of an unrecognised kind, as decoding accepts them: it
    raises, and the instance still has no model afterwards. *)
Theorem generate_unrecognised_kind (c : @CNN E) (w : @world E) (p : PoolingLayer.t) :
  model c = None ->
  In (Pooling p) (deref (layers c) w) ->
  PoolingLayer.pooling_choices !! PoolingLayer.pooling_type p = None ->
  exists e s', generate (c, w) = (Py.Raise e, s') /\ model s'.1 = None.
Proof.
  intros Hm Hin Hnone. exec_monad. rewrite Hm.
  do 2 next ltac:(do 2 eexists; split; [reflexivity | exact Hm]).
  match goal with
  | |- context [for_each ?l ?f ?i ?w1] =>
      destruct (for_each l f i w1) as [[o|ex] w2] eqn:Hfold; simpl
  end.
  - apply fold_ok in Hfold as (Hr & _).
    rewrite (render_unrecognised p _ Hin Hnone) in Hr. discriminate.
  - do 2 eexists; split; [reflexivity | exact Hm].
Qed.

(** C10. The hash, the checkpoint path and the callbacks of an instance are
    those computed by [__init__] from the list as it was then, whatever
    methods are called and however the list is changed afterwards; what a
    later compilation pass builds is rendered, from group number 1, from the
    list as it is when [generate] runs, and handed to the output head. *)
Theorem addressing_fixed_at_construction sh head la opt lo me li
    (w0 w1 : @world E) (c : @CNN E) (ops : list op) :
  init sh head la opt lo me li w0 = (Py.Ok c, w1) ->
  let s := exec_all ops (c, w1) in
  hash s.1 = encode (deref (layers c) w1) /\
  checkpoint_filepath s.1
  = MODEL_BASE_DIRECTORY ++ "/" ++ hash c ++ "/" ++ hash c /\
  callbacks s.1
  = [ModelCheckpoint (checkpoint_filepath c) true "val_accuracy" "max" true;
     TensorBoard ("./logs/train_data/" ++ hash c) "batch" 1] /\
  (forall r s', model s.1 = None -> generate s = (Py.Ok r, s') ->
     addressing s'.1 = addressing c /\
     exists o m (w_pre w_post w_head : @world E),
       GROUP_NUMBER w_pre = 1 /\
       for_each (deref (layers s.1) s.2) tensor_rep (Input (input_shape s.1)) w_pre
       = (Py.Ok o, w_post) /\
       render 1 (deref (layers s.1) s.2) (Input (input_shape s.1)) = Some o /\
       output_function s.1 o w_post = (Py.Ok (outputs m), w_head) /\
       inputs m = Input (input_shape s.1) /\
       r = Some m /\ model s'.1 = Some m).
Proof.
  intros Hinit s.
  destruct (init_spec _ _ _ _ _ _ _ _ _ _ Hinit) as (Hh & Hp & Hcb & _).
  pose proof (exec_all_addressing ops (c, w1)) as Haddr. fold s in Haddr.
  unfold addressing in Haddr. simpl in Haddr. injection Haddr as Hs1 Hs2 Hs3.
  rewrite Hs1, Hs2, Hs3. split; [exact Hh|]. split; [exact Hp|].
  split; [exact Hcb|]. intros r s' Hm Hgen. split.
  - destruct (generate_addressing s) as [Hg _]. rewrite Hgen in Hg.
    simpl in Hg. rewrite Hg. unfold addressing. congruence.
  - destruct s as [cs ws].
    destruct (generate_pass cs ws r s' Hm Hgen)
      as (w_pre & o & w_post & o' & w_head & w_end & m & H1 & Hfold & Hhead
          & Hmodel & -> & -> & _).
    pose proof (fold_ok _ _ _ _ _ Hfold) as (Hr & _). rewrite H1 in Hr.
    exists o, m, w_pre, w_post, w_head. rewrite Hmodel at 1 2. simpl.
    repeat split; assumption.
Qed.

(** X11. When a compilation pass returns, the model it returns has the
    input placeholder of the configured shape as its input, and its output is
    what the output head returned for the node [render] computes, from group
    number 1, for the list as it is when [generate] runs. *)
Theorem generate_builds_render (c : @CNN E) (w : @world E) r s' :
  model c = None -> generate (c, w) = (Py.Ok r, s') ->
  exists o m (w2 w3 : @world E),
    render 1 (deref (layers c) w) (Input (input_shape c)) = Some o /\
    output_function c o w2 = (Py.Ok (outputs m), w3) /\
    inputs m = Input (input_shape c) /\
    r = Some m /\ s'.1 = set_model (Some m) c.
Proof.
  intros Hm Hgen.
  destruct (generate_pass c w r s' Hm Hgen)
    as (w1 & o & w2 & o' & w3 & w4 & m & H1 & Hfold & Hhead & Hmodel & -> & -> & _).
  apply fold_ok in Hfold as (Hr & _). rewrite H1 in Hr.
  exists o, m, w2, w3. rewrite Hmodel at 1 2. simpl.
  split; [exact Hr|]. split; [exact Hhead|]. repeat split.
Qed.

(** X12. When [generate] returns it returns a model, never [None]; that
    model is the one the instance holds afterwards, and no other attribute of
    the instance has changed. *)
Theorem generate_returns_model (c : @CNN E) (w : @world E) r s' :
  generate (c, w) = (Py.Ok r, s') ->
  exists m, r = Some m /\ s'.1 = set_model (Some m) c.
Proof.
  intros Hgen. destruct (generate_returns c w r s' Hgen) as (m & -> & Hmodel).
  destruct (generate_state (c, w)) as [mo Hstate]. rewrite Hgen in Hstate.
  simpl in Hstate. rewrite Hstate in Hmodel. simpl in Hmodel.
  exists m. split; [reflexivity|]. now rewrite Hstate, Hmodel.
Qed.

(** X13. [evaluate] on an instance that holds a model: a data dict without
    ['x_test'] raises [KeyError] of that key, one with ['x_test'] but without
    ['y_test'] raises [KeyError] of ['y_test'], both before any engine call;
    otherwise the only engine call is the evaluation of the model on the two
    test arrays with the batch size, and the instance, the group counter and
    the list objects are unchanged; the engine is left as that call leaves
    it, and [evaluate] raises what the call raises and returns its scores
    otherwise. *)
Theorem evaluate_compiled (c : @CNN E) (w : @world E) (m : Model) data batch_size :
  model c = Some m ->
  match data !! "x_test", data !! "y_test" with
  | None, _ =>
      evaluate data batch_size (c, w) = (Py.Raise (Py.KeyError "x_test"), (c, w))
  | Some _, None =>
      evaluate data batch_size (c, w) = (Py.Raise (Py.KeyError "y_test"), (c, w))
  | Some x, Some y =>
      exists r w',
        evaluate data batch_size (c, w) = (r, (c, w')) /\
        trace w' = (trace w ++ [evaluate_call m x y batch_size])%list /\
        GROUP_NUMBER w' = GROUP_NUMBER w /\ lists w' = lists w /\
        (r = Py.Ok (Scores m x y batch_size) \/ exists e, r = Py.Raise e) /\
        engine w' = (run E (evaluate_call m x y batch_size) (engine w)).2 /\
        r = match (run E (evaluate_call m x y batch_size) (engine w)).1 with
            | Some e => Py.Raise e
            | None => Py.Ok (Scores m x y batch_size)
            end
  end.
Proof.
  intros Hm. exec_monad. rewrite Hm.
  destruct (data !! "x_test") as [x|]; simpl; [|reflexivity].
  destruct (data !! "y_test") as [y|]; simpl; [|reflexivity].
  unfold engine_call. simpl.
  destruct (run E _ (engine w)) as [[e|] e']; simpl;
    do 2 eexists; (split; [reflexivity|]); simpl; repeat split; eauto.
Qed.

(** X14. [train] on an instance that holds a model, when checkpoint reuse
    is disabled or the checkpoint directory does not exist: a data dict
    without ['x_train'] raises [KeyError] of that key, one without
    ['y_train'] raises [KeyError] of ['y_train'], both before any engine
    call; otherwise [train] hands the engine [fit] with a validation split
    of 0.2 and the callbacks of the instance, and nothing else, never
    [load_weights]: the engine is left as that call leaves it, and [train]
    raises what the call raises and returns otherwise. *)
Theorem train_fits (c : @CNN E) (w : @world E) (m : Model) data batch_size epochs :
  model c = Some m ->
  load_if_exist c &&
    path_exists E (MODEL_BASE_DIRECTORY ++ "/" ++ hash c ++ "/") (engine w) = false ->
  match data !! "x_train", data !! "y_train" with
  | None, _ =>
      train data batch_size epochs (c, w)
      = (Py.Raise (Py.KeyError "x_train"), (c, w))
  | Some _, None =>
      train data batch_size epochs (c, w)
      = (Py.Raise (Py.KeyError "y_train"), (c, w))
  | Some x, Some y =>
      exists r w',
        train data batch_size epochs (c, w) = (r, (c, w')) /\
        trace w' = (trace w ++ [fit m x y batch_size epochs 0.2%Q (callbacks c)])%list /\
        engine w'
        = (run E (fit m x y batch_size epochs 0.2%Q (callbacks c)) (engine w)).2 /\
        r = match (run E (fit m x y batch_size epochs 0.2%Q (callbacks c))
                     (engine w)).1 with
            | Some e => Py.Raise e
            | None => Py.Ok tt
            end /\
        GROUP_NUMBER w' = GROUP_NUMBER w /\ lists w' = lists w
  end.
Proof.
  intros Hm Hcond. exec_monad. simpl in Hcond. rewrite Hcond, Hm.
  destruct (data !! "x_train") as [x|]; simpl; [|reflexivity].
  destruct (data !! "y_train") as [y|]; simpl; [|reflexivity].
  unfold engine_call. simpl.
  destruct (run E _ (engine w)) as [[e|] e']; simpl;
    do 2 eexists; (split; [reflexivity|]); simpl; repeat split; eauto.
Qed.

(** X15. Whatever the instance, the data and the engine, [train] leaves the
    instance, the group counter, the list objects and the output as they
    are, and makes at most one engine call: none, or [load_weights] on the
    checkpoint path, or [fit], on the model the instance holds. *)
Theorem train_footprint (c : @CNN E) (w : @world E) data batch_size epochs :
  exists r w',
    train data batch_size epochs (c, w) = (r, (c, w')) /\
    GROUP_NUMBER w' = GROUP_NUMBER w /\ lists w' = lists w /\
    stdout w' = stdout w /\ next_model w' = next_model w /\
    (trace w' = trace w /\ engine w' = engine w \/
     exists m, model c = Some m /\
       (trace w' = (trace w ++ [load_weights m (checkpoint_filepath c)])%list \/
        exists x y, trace w'
          = (trace w ++ [fit m x y batch_size epochs 0.2%Q (callbacks c)])%list)).
Proof.
  exec_monad. destruct (_ && _); destruct (model c) as [m|]; simpl.
  - unfold engine_call. simpl.
    destruct (run E _ (engine w)) as [[e|] e']; simpl;
      do 2 eexists; (split; [reflexivity|]); simpl; repeat split;
      right; exists m; split; eauto.
  - do 2 eexists. split; [reflexivity|]. repeat split. now left.
  - destruct (data !! "x_train") as [x|]; simpl;
      [|do 2 eexists; split; [reflexivity|]; repeat split; now left].
    destruct (data !! "y_train") as [y|]; simpl;
      [|do 2 eexists; split; [reflexivity|]; repeat split; now left].
    unfold engine_call. simpl.
    destruct (run E _ (engine w)) as [[e|] e']; simpl;
      do 2 eexists; (split; [reflexivity|]); simpl; repeat split;
      right; exists m; split; eauto.
  - do 2 eexists. split; [reflexivity|]. repeat split. now left.
Qed.

(** X16. When constructing an instance with [layers=None] returns, the
    instance has a new, empty list object of its own and every list object
    that existed is unchanged; the hash is the empty string and the
    checkpoint path is ["./checkpoints//"]; the engine calls made are the
    constructors of the Adam optimizer, when no optimizer was given, and of
    the two callbacks on those paths. *)
Theorem init_without_layers sh head opt lo me li (w w' : @world E) (c : @CNN E) :
  init sh head None opt lo me li w = (Py.Ok c, w') ->
  lists w !! layers c = None /\
  deref (layers c) w' = [] /\
  (forall a, a <> layers c -> lists w' !! a = lists w !! a) /\
  hash c = "" /\ checkpoint_filepath c = "./checkpoints//" /\
  model c = None /\ GROUP_NUMBER w' = GROUP_NUMBER w /\
  trace w'
  = (trace w ++ match opt with None => [new_Adam] | Some _ => [] end
             ++ [new_callback (ModelCheckpoint "./checkpoints//" true
                                 "val_accuracy" "max" true);
                 new_callback (TensorBoard "./logs/train_data/" "batch" 1)])%list.
Proof.
  intros Hinit.
  destruct (init_spec _ _ _ _ _ _ _ _ _ _ Hinit)
    as (Hh & Hp & _ & Hm & Hn & (Hfresh & Hd & Hother) & Htrace).
  assert (Hhash : hash c = "") by (now rewrite Hh, Hd).
  rewrite Hp, Hhash in Htrace. rewrite Hp, Hhash.
  repeat split; assumption || reflexivity.
Qed.

End Methods.

(** ** The further properties on concrete inputs *)


Lemma generate_unrecognised_kind_witness :
  exists (c : @CNN quiet_engine) w,
    CNN0 (Some 0%nat) (world0 {[ 0%nat := unrecognised ]} ∅) = (Py.Ok c, w) /\
    exists e s', generate (c, w) = (Py.Raise e, s') /\ model s'.1 = None.
Proof.
  exists_run (CNN0 (E := quiet_engine) (Some 0%nat)
                (world0 {[ 0%nat := unrecognised ]} ∅)).
  split; [reflexivity|].
  match goal with |- context [generate (?c, ?w)] =>
    apply (generate_unrecognised_kind c w (PoolingLayer.init "foo"))
  end.
  - reflexivity.
  - right. left. reflexivity.
  - reflexivity.
Defined.

Lemma generate_builds_render_witness :
  exists (c : @CNN quiet_engine) w,
    CNN0 (Some 0%nat) (world0 {[ 0%nat := swapped_a ]} ∅) = (Py.Ok c, w) /\
    exists r s',
      generate (c, set_GROUP_NUMBER 7 w) = (Py.Ok r, s') /\
      exists o m (w2 w3 : @world quiet_engine),
        render 1 swapped_a (Input [28; 28; 1]) = Some o /\
        output_function c o w2 = (Py.Ok (outputs m), w3) /\
        inputs m = Input [28; 28; 1] /\
        r = Some m /\ s'.1 = set_model (Some m) c.
Proof.
  exists_run (CNN0 (E := quiet_engine) (Some 0%nat) (world0 {[ 0%nat := swapped_a ]} ∅)).
  split; [reflexivity|].
  match goal with |- exists r s', generate (?c, ?w) = _ /\ _ =>
    let v := eval vm_compute in (generate (c, w)) in
    match v with
    | (Py.Ok ?r, ?s') =>
        exists r, s'; split; [reflexivity|];
        apply (generate_builds_render c w r s'); reflexivity
    end
  end.
Defined.

Lemma generate_returns_model_witness :
  exists (c : @CNN quiet_engine) w,
    CNN0 (Some 0%nat) (world0 {[ 0%nat := swapped_a ]} ∅) = (Py.Ok c, w) /\
    exists r s',
      generate (c, w) = (Py.Ok r, s') /\
      exists m, r = Some m /\ s'.1 = set_model (Some m) c.
Proof.
  exists_run (CNN0 (E := quiet_engine) (Some 0%nat) (world0 {[ 0%nat := swapped_a ]} ∅)).
  split; [reflexivity|].
  match goal with |- exists r s', generate (?c, ?w) = _ /\ _ =>
    let v := eval vm_compute in (generate (c, w)) in
    match v with
    | (Py.Ok ?r, ?s') =>
        exists r, s'; split; [reflexivity|];
        apply (generate_returns_model c w r s'); reflexivity
    end
  end.
Defined.

Lemma addressing_fixed_at_construction_witness :
  exists (c : @CNN quiet_engine) w1,
    CNN0 (Some 0%nat) (world0 {[ 0%nat := [Skip (SkipLayer.init 32 64)] ]} ∅)
    = (Py.Ok c, w1) /\
    let s := exec_all [mutate_list 0 [Pooling (PoolingLayer.init "max")]] (c, w1) in
    deref (layers s.1) s.2 = [Pooling (PoolingLayer.init "max")] /\
    hash s.1 = "32-64" /\
    checkpoint_filepath s.1 = "./checkpoints/32-64/32-64" /\
    callbacks s.1
    = [ModelCheckpoint "./checkpoints/32-64/32-64" true "val_accuracy" "max" true;
       TensorBoard "./logs/train_data/32-64" "batch" 1] /\
    exists m0 s',
      generate s = (Py.Ok (Some m0), s') /\
      outputs m0
      = Dense 10 "softmax" (Flatten (MaxPool2D (2, 2) (2, 2) (Input [28; 28; 1]))) /\
      addressing s'.1 = addressing c /\
      exists o m (w_pre w_post w_head : @world quiet_engine),
        GROUP_NUMBER w_pre = 1 /\
        for_each (deref (layers s.1) s.2) tensor_rep (Input (input_shape s.1)) w_pre
        = (Py.Ok o, w_post) /\
        render 1 [Pooling (PoolingLayer.init "max")] (Input [28; 28; 1]) = Some o /\
        output_function s.1 o w_post = (Py.Ok (outputs m), w_head) /\
        inputs m = Input [28; 28; 1] /\
        Some m0 = Some m /\ model s'.1 = Some m.
Proof.
  exists_run (CNN0 (E := quiet_engine) (Some 0%nat)
                (world0 {[ 0%nat := [Skip (SkipLayer.init 32 64)] ]} ∅)).
  match goal with |- ?init_eq /\ _ =>
    assert (Hinit : init_eq) by reflexivity
  end.
  split; [exact Hinit|]. intros s. unfold CNN0 in Hinit.
  destruct (addressing_fixed_at_construction _ _ _ _ _ _ _ _ _ _
              [mutate_list 0 [Pooling (PoolingLayer.init "max")]] Hinit)
    as (Hhash & Hpath & Hcallbacks & Hgen).
  split; [reflexivity|]. split; [exact Hhash|]. split; [exact Hpath|].
  split; [exact Hcallbacks|].
  match goal with |- exists m0 s', ?g = _ /\ _ =>
    let r := eval vm_compute in g in
    match r with
    | (Py.Ok (Some ?m), ?s') =>
        exists m, s'; split; [reflexivity|]; split; [reflexivity|];
        apply (Hgen (Some m) s'); reflexivity
    end
  end.
Defined.

Lemma init_without_layers_witness :
  exists (c : @CNN quiet_engine) w',
    CNN0 None (world0 {[ 0%nat := swapped_a ]} ∅) = (Py.Ok c, w') /\
    lists (world0 {[ 0%nat := swapped_a ]} ∅) !! layers c = None /\
    deref (layers c) w' = [] /\
    (forall a, a <> layers c ->
               lists w' !! a = lists (world0 {[ 0%nat := swapped_a ]} ∅) !! a) /\
    hash c = "" /\ checkpoint_filepath c = "./checkpoints//" /\
    model c = None /\ GROUP_NUMBER w' = 1 /\
    trace w'
    = [new_Adam;
       new_callback (ModelCheckpoint "./checkpoints//" true "val_accuracy" "max" true);
       new_callback (TensorBoard "./logs/train_data/" "batch" 1)].
Proof.
  exists_run (CNN0 (E := quiet_engine) None (world0 {[ 0%nat := swapped_a ]} ∅)).
  match goal with |- ?init_eq /\ _ =>
    assert (Hinit : init_eq) by reflexivity
  end.
  split; [exact Hinit|]. unfold CNN0 in Hinit.
  exact (init_without_layers _ _ _ _ _ _ _ _ _ Hinit).
Defined.

Lemma evaluate_compiled_witness :
  exists (c0 : @CNN quiet_engine) w0,
    CNN0 (Some 0%nat) (world0 {[ 0%nat := swapped_a ]} ∅) = (Py.Ok c0, w0) /\
    exists m c w,
      generate (c0, w0) = (Py.Ok (Some m), (c, w)) /\
      model c = Some m /\
      evaluate train_data 64 (c, w) = (Py.Raise (Py.KeyError "x_test"), (c, w)) /\
      exists r w',
        evaluate test_data 64 (c, w) = (r, (c, w')) /\
        trace w' = (trace w ++ [evaluate_call m (Array 2) (Array 3) 64])%list /\
        GROUP_NUMBER w' = GROUP_NUMBER w /\ lists w' = lists w /\
        (r = Py.Ok (Scores m (Array 2) (Array 3) 64) \/ exists e, r = Py.Raise e) /\
        engine w' = engine w /\
        r = Py.Ok (Scores m (Array 2) (Array 3) 64).
Proof.
  exists_run (CNN0 (E := quiet_engine) (Some 0%nat) (world0 {[ 0%nat := swapped_a ]} ∅)).
  split; [reflexivity|].
  match goal with |- exists m c w, generate ?s = _ /\ _ =>
    let v := eval vm_compute in (generate s) in
    match v with
    | (Py.Ok (Some ?m), (?c, ?w)) =>
        exists m, c, w; split; [reflexivity|]; split; [reflexivity|]; split;
        [exact (evaluate_compiled c w m train_data 64 eq_refl)
        |exact (evaluate_compiled c w m test_data 64 eq_refl)]
    end
  end.
Defined.

Lemma train_fits_witness :
  exists (c0 : @CNN quiet_engine) w0,
    CNN0 (Some 0%nat) (world0 {[ 0%nat := swapped_a ]} ∅) = (Py.Ok c0, w0) /\
    exists m c w,
      generate (c0, w0) = (Py.Ok (Some m), (c, w)) /\
      model c = Some m /\
      train test_data 64 1 (c, w) = (Py.Raise (Py.KeyError "x_train"), (c, w)) /\
      exists r w',
        train train_data 64 1 (c, w) = (r, (c, w')) /\
        trace w' = (trace w ++ [fit m (Array 0) (Array 1) 64 1 0.2%Q (callbacks c)])%list /\
        engine w' = engine w /\ r = Py.Ok tt /\
        GROUP_NUMBER w' = GROUP_NUMBER w /\ lists w' = lists w.
Proof.
  exists_run (CNN0 (E := quiet_engine) (Some 0%nat) (world0 {[ 0%nat := swapped_a ]} ∅)).
  split; [reflexivity|].
  match goal with |- exists m c w, generate ?s = _ /\ _ =>
    let v := eval vm_compute in (generate s) in
    match v with
    | (Py.Ok (Some ?m), (?c, ?w)) =>
        exists m, c, w; split; [reflexivity|]; split; [reflexivity|]; split;
        [exact (train_fits c w m test_data 64 1 eq_refl eq_refl)
        |exact (train_fits c w m train_data 64 1 eq_refl eq_refl)]
    end
  end.
Defined.

(** * Group names, printed instances and token counts *)

Lemma append_length (a b : string) :
  String.length (a ++ b) = (String.length a + String.length b)%nat.
Proof. induction a as [|x a IH]; simpl; [reflexivity | now rewrite IH]. Qed.

Lemma append_inj_r (c : string) : forall a b, a ++ c = b ++ c -> a = b.
Proof.
  induction a as [|x a IH]; intros [|y b] H; simpl in H.
  - reflexivity.
  - apply (f_equal String.length) in H. simpl in H. rewrite append_length in H. lia.
  - apply (f_equal String.length) in H. simpl in H. rewrite append_length in H. lia.
  - injection H as -> H. f_equal. now apply IH.
Qed.

Lemma str_inj n m : 0 <= n -> 0 <= m -> Py.str n = Py.str m -> n = m.
Proof.
  intros Hn Hm H. apply (f_equal Py.int) in H.
  rewrite !int_str in H by assumption. congruence.
Qed.

(** X17. Blocks rendered under different non-negative group numbers carry
    different group names, so they are different nodes, whatever the layers
    and the inputs. *)
Theorem skip_graph_distinct (n m : Z) (s s' : SkipLayer.t) (x x' : tensor) :
  0 <= n -> 0 <= m -> n <> m ->
  "SkipLayer_" ++ Py.str n <> "SkipLayer_" ++ Py.str m /\
  skip_graph n s x <> skip_graph m s' x'.
Proof.
  intros Hn Hm Hne. split.
  - simpl. intros [= H]. now apply Hne, str_inj.
  - unfold skip_graph. simpl. intros [= H _]. apply Hne, str_inj; try assumption.
    now apply (append_inj_r "/ReLU2").
Qed.

Lemma skip_graph_distinct_witness :
  "SkipLayer_" ++ Py.str 1 <> "SkipLayer_" ++ Py.str 2 /\
  skip_graph 1 (SkipLayer.init 32 64) (Input [28; 28; 1])
  <> skip_graph 2 (SkipLayer.init 32 64) (Input [28; 28; 1]).
Proof. apply skip_graph_distinct; lia. Defined.

(** X18. An instance constructed on the layers a string decodes to prints
    as the hash of those layers, and decoding what it prints gives the same
    layers again. *)
Theorem repr_decodes {E : Engine} sh head a opt lo me li
    (w w' : @world E) (c : @CNN E) (T : string) (l : list layer) :
  get_layer_from_string T = Py.Ok l ->
  deref a w = l ->
  init sh head (Some a) opt lo me li w = (Py.Ok c, w') ->
  repr c = encode l /\ get_layer_from_string (repr c) = Py.Ok l.
Proof.
  intros Hdec Hl Hinit.
  destruct (init_spec _ _ _ _ _ _ _ _ _ _ Hinit)
    as (Hh & _ & _ & _ & _ & (Ha & Hw) & _).
  assert (Hd : deref (layers c) w' = l)
    by (unfold deref in *; now rewrite Hw, Ha).
  unfold repr, CNN_repr. rewrite Hh, Hd. split; [reflexivity|].
  apply decode_inv in Hdec as (Hne & Hall & Hcan & _).
  rewrite decode_encode by assumption. now rewrite Hcan.
Qed.

Lemma repr_decodes_witness :
  exists (c : @CNN quiet_engine) w',
    get_layer_from_string "032- 64-max" = Py.Ok swapped_a /\
    CNN0 (Some 0%nat) (world0 {[ 0%nat := swapped_a ]} ∅) = (Py.Ok c, w') /\
    repr c = "32-64-max" /\ get_layer_from_string (repr c) = Py.Ok swapped_a.
Proof.
  exists_run (CNN0 (E := quiet_engine) (Some 0%nat) (world0 {[ 0%nat := swapped_a ]} ∅)).
  split; [reflexivity|].
  match goal with |- ?init_eq /\ _ => assert (Hinit : init_eq) by reflexivity end.
  split; [exact Hinit|]. unfold CNN0 in Hinit.
  refine (repr_decodes _ _ _ _ _ _ _ _ _ _ "032- 64-max" swapped_a _ _ Hinit);
    reflexivity.
Defined.

Lemma decode_loop_count ts : forall acc l,
  decode_loop ts acc = Py.Ok l ->
  (length l + length (List.filter is_skip l)
   = length acc + length (List.filter is_skip acc) + length ts)%nat.
Proof.
  induction ts as [|t0 rest IH1 IH2] using tokens_ind; intros acc l H; simpl in H.
  - injection H as <-. simpl. lia.
  - destruct (Py.isdigit t0).
    + destruct (Py.int t0) as [a|]; simpl in H; [|discriminate].
      destruct rest as [|t1 rest']; [discriminate|].
      destruct (Py.int t1) as [b|]; simpl in H; [|discriminate].
      apply (IH2 _ _ eq_refl) in H. rewrite H, List.filter_app, !length_app.
      simpl. lia.
    + apply IH1 in H. rewrite H, List.filter_app, !length_app. simpl. lia.
Qed.

(** X19. Every token of an accepted string is consumed, one per pooling
    layer and two per skip layer: the number of tokens is the number of
    decoded layers plus the number of skip layers among them. *)
Theorem decode_token_count (T : string) (l : list layer) :
  get_layer_from_string T = Py.Ok l ->
  length (Py.split "-" T) = (length l + length (List.filter is_skip l))%nat.
Proof. intros H. apply decode_loop_count in H. simpl in H. lia. Qed.

Lemma decode_token_count_witness :
  get_layer_from_string "32-64-max-128-256" =
    Py.Ok [Skip (SkipLayer.init 32 64); Pooling (PoolingLayer.init "max");
           Skip (SkipLayer.init 128 256)] /\
  length (Py.split "-" "32-64-max-128-256") = 5%nat.
Proof.
  split; [reflexivity|].
  apply (decode_token_count "32-64-max-128-256"
           [Skip (SkipLayer.init 32 64); Pooling (PoolingLayer.init "max");
            Skip (SkipLayer.init 128 256)]).
  reflexivity.
Defined.
